(** * Allocation domain model: [corelib/allocation/domain/model.py]

    A shallow embedding of the order-line / batch domain model and of the
    [allocate] selection policy, together with the properties the
    specification states about them.

    Conventions of the embedding:
    - Python [int] is [Z]; [str] is [string]; [Optional[date]] is
      [option date]; the private [set] of order lines is a [gset].
    - Batches are mutable objects that the caller shares with [allocate]
      through a list of references, so the module-level function runs over
      a heap [gmap loc Batch.t] and a [list loc]; the same object may occur
      several times in that list.
    - Methods are written in a state-and-exception monad whose state is
      [self] (for methods) or the heap (for module-level code).
    - Order lines are values: the module reads their fields and never
      assigns to them. *)

From stdpp Require Import gmap strings list fin_maps fin_sets sorting pretty.

Set Default Proof Using "Type".
Set Warnings "-clear-no-such-hyp".
Local Open Scope Z_scope.

(** ** Control effects *)

(** Modelled from the spec: the exception class [OutOfStock], which the
    module imports from [corelib.exceptions]; a single error kind, built
    from one message string.  [StopIteration] and [KeyError] are the
    built-in exceptions that [next] and [set.remove] raise. *)
Inductive exn : Type :=
  | StopIteration
  | KeyError
  | OutOfStock (msg : string).

#[global] Instance exn_eq_dec : EqDecision exn.
Proof. solve_decision. Defined.

(** The result of running a computation from a state [S]: a normal return,
    a raised exception, or a read through a reference that is not bound in
    the heap.  The last outcome has no Python counterpart (every Python
    reference is live); it only arises for ill-formed heaps. *)
Inductive outcome (S A : Type) : Type :=
  | Return (a : A) (s : S)
  | Raise (e : exn) (s : S)
  | Dangling.
Arguments Return {S A} a s.
Arguments Raise {S A} e s.
Arguments Dangling {S A}.

Definition M (S A : Type) : Type := S → outcome S A.

#[global] Instance M_ret {S} : MRet (M S) := λ A a s, Return a s.
#[global] Instance M_bind {S} : MBind (M S) := λ A B f m s,
  match m s with
  | Return a s' => f a s'
  | Raise e s' => Raise e s'
  | Dangling => Dangling
  end.

Definition raise {S A} (e : exn) : M S A := λ s, Raise e s.
Definition gets {S A} (f : S → A) : M S A := λ s, Return (f s) s.
Definition modify {S} (f : S → S) : M S unit := λ s, Return tt (f s).

(** [try: m except e: handler]: only the named exception is caught. *)
Definition try_except {S A} (m : M S A) (e : exn) (handler : M S A) : M S A :=
  λ s, match m s with
       | Raise e' s' => if decide (e' = e) then handler s' else Raise e' s'
       | r => r
       end.

(** ** OrderLine *)

Module OrderLine.
(** [@dataclass(unsafe_hash=True) class OrderLine] *)
Record t : Type := mk { orderid : string; sku : Z; qty : Z }.

#[global] Instance eq_dec : EqDecision t.
Proof. solve_decision. Defined.

(** The dataclass-generated [__eq__]: field-wise comparison of
    [(orderid, sku, qty)]. *)
Definition eqb (a b : t) : bool :=
  bool_decide (orderid a = orderid b) && (sku a =? sku b) && (qty a =? qty b).

Definition to_tuple (l : t) : string * Z * Z := (orderid l, sku l, qty l).
Definition of_tuple (p : string * Z * Z) : t := mk p.1.1 p.1.2 p.2.

(** Order lines are hashable, hence usable as set elements. *)
#[global] Instance countable : Countable t.
Proof. apply (inj_countable' to_tuple of_tuple). by intros []. Defined.
End OrderLine.

(** ** Dates *)

(** [datetime.date]: compared on [(year, month, day)]. *)
Record date : Type := Date { year : Z; month : Z; day : Z }.

#[global] Instance date_eq_dec : EqDecision date.
Proof. solve_decision. Defined.

Definition date_gt (a b : date) : bool :=
  (year b <? year a)
  || ((year a =? year b)
      && ((month b <? month a)
          || ((month a =? month b) && (day b <? day a)))).

(** ** Batch *)

Module Batch.
Record t : Type := mk {
  reference : string;
  sku : Z;
  eta : option date;
  _purchased_quantity : Z;
  _allocations : gset OrderLine.t
}.

(** Python values a batch may be compared with. *)
Inductive pyobj : Type :=
  | PyBatch (b : t)
  | PyOrderLine (l : OrderLine.t)
  | PyInt (z : Z)
  | PyStr (s : string)
  | PyNone.

(** [Batch(ref, sku, qty, eta)] *)
Definition __init__ (ref : string) (sku : Z) (qty : Z) (eta : option date) : t :=
  {| reference := ref; sku := sku; eta := eta;
     _purchased_quantity := qty; _allocations := ∅ |}.

Definition set_allocations (X : gset OrderLine.t) (self : t) : t :=
  {| reference := reference self; sku := sku self; eta := eta self;
     _purchased_quantity := _purchased_quantity self; _allocations := X |}.

(** [self._allocations.add(line)] *)
Definition allocations_add (line : OrderLine.t) : M t unit :=
  modify (λ self, set_allocations (_allocations self ∪ {[line]}) self).

(** [self._allocations.remove(line)]: [KeyError] when absent. *)
Definition allocations_remove (line : OrderLine.t) : M t unit :=
  λ self, if decide (line ∈ _allocations self)
          then Return tt (set_allocations (_allocations self ∖ {[line]}) self)
          else Raise KeyError self.

(** [sum(line.qty for line in lines)] *)
Definition sum_qty (lines : gset OrderLine.t) : Z :=
  set_fold (λ line acc, acc + OrderLine.qty line) 0 lines.

Definition allocated_quantity : M t Z :=
  lines ← gets _allocations;
  mret (sum_qty lines).

Definition available_quantity : M t Z :=
  purchased ← gets _purchased_quantity;
  allocated ← allocated_quantity;
  mret (purchased - allocated).

(** [self.sku == line.sku and line.qty <= self.available_quantity] *)
Definition can_allocate (line : OrderLine.t) : M t bool :=
  s ← gets sku;
  if s =? OrderLine.sku line
  then available ← available_quantity;
       mret (OrderLine.qty line <=? available)
  else mret false.

Definition allocate (line : OrderLine.t) : M t unit :=
  ok ← can_allocate line;
  if ok : bool then allocations_add line else mret tt.

Definition deallocate (line : OrderLine.t) : M t unit :=
  present ← gets (λ self, bool_decide (line ∈ _allocations self));
  if present : bool then allocations_remove line else mret tt.

Definition __gt__ (self other : t) : bool :=
  match eta self with
  | None => false
  | Some d =>
      match eta other with
      | None => true
      | Some d' => date_gt d d'
      end
  end.

(** [a < b] between batches.  [Batch] defines no [__lt__], so Python
    evaluates the reflected [b.__gt__(a)]. *)
Definition lt (a b : t) : bool := __gt__ b a.

Definition __repr__ (self : t) : string :=
  "<Batch " +:+ reference self +:+ ">".

Definition __eq__ (self : t) (other : pyobj) : bool :=
  match other with
  | PyBatch b => bool_decide (reference b = reference self)
  | _ => false
  end.

Section hash.
(** The built-in [hash] on strings. *)
Variable hash_str : string → Z.

Definition __hash__ (self : t) : Z := hash_str (reference self).
End hash.
End Batch.

(** ** Python's [sorted] *)

Section sorted.
Context {A : Type} (lt : A → A → bool).

(** Insert [x] into an ascending list, to the right of every element
    that [x] is not smaller than. *)
Fixpoint insort_right (x : A) (l : list A) : list A :=
  match l with
  | [] => [x]
  | y :: l' => if lt x y then x :: y :: l' else y :: insort_right x l'
  end.

(** [sorted(l)]: a new list, in ascending order, obtained with [<] only,
    stable.  The elements are inserted one by one from left to right, which
    is how CPython's [list.sort] handles short lists; for a strict weak
    order every stable sort returns this same list ([sorted_unique]
    below). *)
Definition sorted (l : list A) : list A :=
  foldl (λ acc x, insort_right x acc) [] l.
End sorted.

(** ** The heap of batches *)

(** References to batch objects. *)
Abbreviation loc := positive (only parsing).

(** Run a method on the object a reference points to. *)
Definition invoke {A} (obj : loc) (m : M Batch.t A) : M (gmap loc Batch.t) A :=
  λ h, match h !! obj with
       | None => Dangling
       | Some self =>
           match m self with
           | Return a self' => Return a (<[obj := self']> h)
           | Raise e self' => Raise e (<[obj := self']> h)
           | Dangling => Dangling
           end
       end.

(** The objects behind a list of references. *)
Definition deref (objs : list loc) : M (gmap loc Batch.t) (list (loc * Batch.t)) :=
  λ h, match mapM (λ l, pair l <$> h !! l) objs with
       | Some ps => Return ps h
       | None => Dangling
       end.

(** [sorted(batches)]: the references are permuted, the objects compared. *)
Definition sorted_batches (batches : list loc) : M (gmap loc Batch.t) (list loc) :=
  ps ← deref batches;
  mret ((sorted (λ x y, Batch.lt x.2 y.2) ps).*1).

(** [next(b for b in bs if b.can_allocate(line))] *)
Fixpoint next_can_allocate (line : OrderLine.t) (bs : list loc)
    : M (gmap loc Batch.t) loc :=
  match bs with
  | [] => raise StopIteration
  | b :: bs' =>
      ok ← invoke b (Batch.can_allocate line);
      if ok : bool then mret b else next_can_allocate line bs'
  end.

(** ** allocate *)

Definition allocate (line : OrderLine.t) (batches : list loc)
    : M (gmap loc Batch.t) string :=
  batch ← try_except
             (bs ← sorted_batches batches;
              next_can_allocate line bs)
             StopIteration
             (raise (OutOfStock
                ("Out of stock for sku: " +:+ pretty (OrderLine.sku line))));
  invoke batch (Batch.allocate line);;
  invoke batch (gets Batch.reference).

(** ** Vocabulary of the statements *)

(** The value a computation returns, when it returns. *)
Definition value_of {S A} (m : M S A) (s : S) : option A :=
  match m s with
  | Return a _ => Some a
  | _ => None
  end.

(** [b.can_allocate(line)] for the object behind [l]. *)
Definition can_allocate_at (line : OrderLine.t) (h : gmap loc Batch.t) (l : loc) : bool :=
  match h !! l with
  | Some b => bool_decide (value_of (Batch.can_allocate line) b = Some true)
  | None => false
  end.

(** [a > b] for the objects behind [a] and [b]. *)
Definition gt_at (h : gmap loc Batch.t) (a b : loc) : bool :=
  match h !! a, h !! b with
  | Some x, Some y => Batch.__gt__ x y
  | _, _ => false
  end.

(** [b.eta] for the object behind [l]. *)
Definition eta_at (h : gmap loc Batch.t) (l : loc) : option (option date) :=
  Batch.eta <$> h !! l.

(** A public mutating call on a batch. *)
Inductive call : Type :=
  | Allocate (line : OrderLine.t)
  | Deallocate (line : OrderLine.t).

Definition call_line (c : call) : OrderLine.t :=
  match c with Allocate line | Deallocate line => line end.

Definition perform (c : call) : M Batch.t unit :=
  match c with
  | Allocate line => Batch.allocate line
  | Deallocate line => Batch.deallocate line
  end.

Fixpoint perform_all (cs : list call) : M Batch.t unit :=
  match cs with
  | [] => mret tt
  | c :: cs' => perform c;; perform_all cs'
  end.

(** ** Example data *)

(** The three batches of the specification's selection example: two dated
    ones and one in stock, 20 units of the same sku each. *)
Definition example_heap : gmap loc Batch.t :=
  <[1%positive := Batch.__init__ "batch-1" 7 20 (Some (Date 2020 1 2))]>
    (<[2%positive := Batch.__init__ "batch-2" 7 20 (Some (Date 2020 1 1))]>
       (<[3%positive := Batch.__init__ "batch-3" 7 20 None]> ∅)).

Definition example_batches : list loc := [1; 2; 3]%positive.

Definition example_line : OrderLine.t := OrderLine.mk "order-1" 7 2.

(** A line that no batch of [example_heap] can take. *)
Definition example_large_line : OrderLine.t := OrderLine.mk "order-2" 7 21.

(** A fourth batch that arrives on the same day as ["batch-2"], listed
    before it. *)
Definition example_tie_heap : gmap loc Batch.t :=
  <[4%positive := Batch.__init__ "batch-4" 7 20 (Some (Date 2020 1 1))]>
    example_heap.

Definition example_tie_batches : list loc := [4; 1; 2; 3]%positive.

(** * Properties *)

(** ** Sums over the allocation set *)

Lemma sum_qty_empty : Batch.sum_qty ∅ = 0.
Proof. apply set_fold_empty. Qed.

Lemma sum_qty_add_fresh (line : OrderLine.t) (X : gset OrderLine.t) :
  line ∉ X → Batch.sum_qty (X ∪ {[line]}) = Batch.sum_qty X + OrderLine.qty line.
Proof.
  intros Hfresh. unfold Batch.sum_qty.
  rewrite (set_fold_disj_union_strong (=)); [|solve_proper|intros; lia|set_solver].
  by rewrite set_fold_singleton.
Qed.

Lemma allocations_add_present (line : OrderLine.t) (X : gset OrderLine.t) :
  line ∈ X → X ∪ {[line]} = X.
Proof. set_solver. Qed.

Lemma sum_qty_remove (line : OrderLine.t) (X : gset OrderLine.t) :
  line ∈ X → Batch.sum_qty (X ∖ {[line]}) = Batch.sum_qty X - OrderLine.qty line.
Proof.
  intros Hin.
  assert (X = X ∖ {[line]} ∪ {[line]}) as HX.
  { apply set_eq. intros x. destruct (decide (x = line)); set_solver. }
  rewrite HX at 2. rewrite sum_qty_add_fresh; [lia|set_solver].
Qed.

(** ** The methods of [Batch], evaluated *)

Lemma set_allocations_id (self : Batch.t) :
  Batch.set_allocations (Batch._allocations self) self = self.
Proof. by destruct self. Qed.

Lemma allocated_quantity_eq (self : Batch.t) :
  Batch.allocated_quantity self
  = Return (Batch.sum_qty (Batch._allocations self)) self.
Proof. reflexivity. Qed.

Lemma available_quantity_eq (self : Batch.t) :
  Batch.available_quantity self
  = Return (Batch._purchased_quantity self
            - Batch.sum_qty (Batch._allocations self)) self.
Proof. reflexivity. Qed.

Lemma can_allocate_eq (line : OrderLine.t) (self : Batch.t) :
  Batch.can_allocate line self
  = Return ((Batch.sku self =? OrderLine.sku line)
            && (OrderLine.qty line
                <=? Batch._purchased_quantity self
                    - Batch.sum_qty (Batch._allocations self))) self.
Proof.
  unfold Batch.can_allocate, mbind, M_bind, gets.
  destruct (Batch.sku self =? OrderLine.sku line); reflexivity.
Qed.

Lemma allocate_eq (line : OrderLine.t) (self : Batch.t) :
  Batch.allocate line self
  = Return tt
      (if (Batch.sku self =? OrderLine.sku line)
          && (OrderLine.qty line
              <=? Batch._purchased_quantity self
                  - Batch.sum_qty (Batch._allocations self))
       then Batch.set_allocations (Batch._allocations self ∪ {[line]}) self
       else self).
Proof.
  unfold Batch.allocate, mbind, M_bind. rewrite can_allocate_eq.
  by destruct (_ && _).
Qed.

Lemma deallocate_eq (line : OrderLine.t) (self : Batch.t) :
  Batch.deallocate line self
  = Return tt
      (if decide (line ∈ Batch._allocations self)
       then Batch.set_allocations (Batch._allocations self ∖ {[line]}) self
       else self).
Proof.
  unfold Batch.deallocate, Batch.allocations_remove, mbind, M_bind, gets.
  destruct (decide (line ∈ Batch._allocations self)) as [Hin|Hout].
  - rewrite bool_decide_eq_true_2 by done. by rewrite decide_True.
  - by rewrite bool_decide_eq_false_2.
Qed.

Lemma OrderLine_eqb_eq (a b : OrderLine.t) : OrderLine.eqb a b = true ↔ a = b.
Proof.
  unfold OrderLine.eqb. destruct a as [o1 s1 q1], b as [o2 s2 q2]; simpl.
  rewrite !andb_true_iff, bool_decide_eq_true, !Z.eqb_eq.
  split; [intros [[-> ->] ->]; done|intros [= -> -> ->]; done].
Qed.

(** ** Batch.can_allocate *)

(** C4. [can_allocate(line)] returns, leaves the batch as it was, and its
    result is true exactly when the line's sku is the batch's sku and the
    line's quantity is at most [available_quantity]; in particular a line
    whose quantity equals [available_quantity] is allocatable. *)
Theorem can_allocate_iff_sku_and_fits (line : OrderLine.t) (self : Batch.t) :
  ∃ (ok : bool) (available : Z),
    Batch.can_allocate line self = Return ok self
    ∧ Batch.available_quantity self = Return available self
    ∧ (ok = true ↔
         OrderLine.sku line = Batch.sku self ∧ OrderLine.qty line ≤ available)
    ∧ (OrderLine.sku line = Batch.sku self →
       OrderLine.qty line = available → ok = true).
Proof.
  eexists _, _. split; [apply can_allocate_eq|].
  split; [apply available_quantity_eq|].
  rewrite andb_true_iff, Z.eqb_eq, Z.leb_le. split; [|intros ? ->]; lia.
Qed.

(** ** Batch.allocate *)

(** C5. [Batch.allocate(line)] always returns normally.  When
    [can_allocate(line)] is true the line is inserted into the allocation
    set and nothing else changes; when it is false the batch is left as it
    was, so that its allocation set, [allocated_quantity] and
    [available_quantity] are unchanged.  A line with another sku and a line
    larger than [available_quantity] are both in the second case. *)
Theorem Batch_allocate_inserts_or_noop (line : OrderLine.t) (self : Batch.t) :
  ∃ self' : Batch.t,
    Batch.allocate line self = Return tt self'
    ∧ (value_of (Batch.can_allocate line) self = Some true →
       self' = Batch.set_allocations (Batch._allocations self ∪ {[line]}) self
       ∧ line ∈ Batch._allocations self')
    ∧ (value_of (Batch.can_allocate line) self = Some false →
       self' = self
       ∧ Batch._allocations self' = Batch._allocations self
       ∧ Batch.allocated_quantity self' = Batch.allocated_quantity self
       ∧ Batch.available_quantity self' = Batch.available_quantity self)
    ∧ (OrderLine.sku line ≠ Batch.sku self →
       value_of (Batch.can_allocate line) self = Some false)
    ∧ (∀ available : Z,
         value_of Batch.available_quantity self = Some available →
         available < OrderLine.qty line →
         value_of (Batch.can_allocate line) self = Some false).
Proof.
  eexists. split; [apply allocate_eq|].
  unfold value_of. rewrite can_allocate_eq, available_quantity_eq.
  split_and!.
  - intros [= ->]. split; [done|]. simpl. set_solver.
  - intros [= ->]. done.
  - intros Hsku. f_equal. apply andb_false_iff. left. apply Z.eqb_neq. congruence.
  - intros available [= <-] Hlt. f_equal. apply andb_false_iff. right.
    apply Z.leb_gt. done.
Qed.

(** C6. Allocating an equal-valued line a second time leaves the batch
    exactly as the first call left it (hence also its allocation set,
    [allocated_quantity] and [available_quantity]). *)
Theorem Batch_allocate_idempotent (line line' : OrderLine.t) (self : Batch.t) :
  OrderLine.eqb line line' = true →
  ∃ self1 : Batch.t,
    Batch.allocate line self = Return tt self1
    ∧ Batch.allocate line' self1 = Return tt self1
    ∧ (Batch.allocate line;; Batch.allocate line') self
      = Batch.allocate line self.
Proof.
  intros <-%OrderLine_eqb_eq.
  assert (∀ b, ∃ b1, Batch.allocate line b = Return tt b1
                     ∧ Batch.allocate line b1 = Return tt b1) as Hidem.
  { intros b. rewrite allocate_eq. destruct (_ && _) eqn:Hok.
    - eexists. split; [done|]. rewrite allocate_eq. f_equal.
      match goal with |- (if ?c then _ else _) = _ => destruct c end; [|done].
      destruct b; unfold Batch.set_allocations; simpl. f_equal. set_solver.
    - eexists. split; [done|]. by rewrite allocate_eq, Hok. }
  destruct (Hidem self) as (self1 & H1 & H2).
  exists self1. repeat split; [done..|].
  unfold mbind, M_bind. by rewrite H1, H2.
Qed.

Lemma Batch_allocate_idempotent_witness :
  OrderLine.eqb (OrderLine.mk "order-1" 7 2) (OrderLine.mk "order-1" 7 2) = true
  ∧ ∃ self1 : Batch.t,
      Batch.allocate (OrderLine.mk "order-1" 7 2)
        (Batch.__init__ "batch-1" 7 20 None) = Return tt self1
      ∧ Batch.allocate (OrderLine.mk "order-1" 7 2) self1 = Return tt self1
      ∧ (Batch.allocate (OrderLine.mk "order-1" 7 2);;
         Batch.allocate (OrderLine.mk "order-1" 7 2))
          (Batch.__init__ "batch-1" 7 20 None)
        = Batch.allocate (OrderLine.mk "order-1" 7 2)
            (Batch.__init__ "batch-1" 7 20 None).
Proof.
  split; [reflexivity|].
  apply (Batch_allocate_idempotent (OrderLine.mk "order-1" 7 2)
           (OrderLine.mk "order-1" 7 2) (Batch.__init__ "batch-1" 7 20 None)).
  reflexivity.
Defined.

(** ** Batch.deallocate *)

(** C7, as stated, fails: a batch that already holds the line can still
    allocate it; [allocate] then adds nothing and [deallocate] removes the
    line that was there before.  Here the batch was built by the public
    operations [Batch("batch-1", 7, 20, None)] and one [allocate(line)]. *)
Lemma allocate_deallocate_roundtrip_fails_when_present :
  let line := OrderLine.mk "order-1" 7 2 in
  let self := Batch.set_allocations {[line]} (Batch.__init__ "batch-1" 7 20 None) in
  perform_all [Allocate line] (Batch.__init__ "batch-1" 7 20 None) = Return tt self
  ∧ value_of (Batch.can_allocate line) self = Some true
  ∧ value_of Batch.available_quantity self = Some 18
  ∧ line ∈ Batch._allocations self
  ∧ ∃ self2 : Batch.t,
      (Batch.allocate line;; Batch.deallocate line) self = Return tt self2
      ∧ value_of Batch.available_quantity self2 = Some 20
      ∧ line ∉ Batch._allocations self2.
Proof.
  split_and!.
  - vm_compute. reflexivity.
  - vm_compute. reflexivity.
  - vm_compute. reflexivity.
  - apply (bool_decide_unpack _). vm_compute. exact I.
  - exists (Batch.__init__ "batch-1" 7 20 None). split_and!.
    + vm_compute. reflexivity.
    + vm_compute. reflexivity.
    + apply (bool_decide_unpack _). vm_compute. exact I.
Qed.

(** C7, amended.  [deallocate(line)] returns normally; it removes the line
    when the line is allocated and leaves the batch as it was otherwise.
    For a line the batch can allocate and does not hold yet, [allocate]
    followed by [deallocate] gives back the batch as it was before. *)
Theorem deallocate_removes_and_roundtrip (line : OrderLine.t) (self : Batch.t) :
  (line ∈ Batch._allocations self →
   Batch.deallocate line self
   = Return tt (Batch.set_allocations (Batch._allocations self ∖ {[line]}) self))
  ∧ (line ∉ Batch._allocations self →
     Batch.deallocate line self = Return tt self)
  ∧ (value_of (Batch.can_allocate line) self = Some true →
     line ∉ Batch._allocations self →
     (Batch.allocate line;; Batch.deallocate line) self = Return tt self).
Proof.
  split_and!.
  - intros Hin. rewrite deallocate_eq. by rewrite decide_True.
  - intros Hout. rewrite deallocate_eq. by rewrite decide_False.
  - unfold value_of. rewrite can_allocate_eq. intros [= Hok] Hout.
    unfold mbind, M_bind. rewrite allocate_eq, Hok, deallocate_eq.
    rewrite decide_True by (simpl; set_solver).
    destruct self as [r s e p X]; unfold Batch.set_allocations; simpl in *.
    do 2 f_equal. set_solver.
Qed.

Lemma deallocate_removes_and_roundtrip_witness :
  value_of (Batch.can_allocate example_line)
    (Batch.__init__ "batch-3" 7 20 None) = Some true
  ∧ (example_line ∉ Batch._allocations (Batch.__init__ "batch-3" 7 20 None))
  ∧ (Batch.allocate example_line;; Batch.deallocate example_line)
      (Batch.__init__ "batch-3" 7 20 None)
    = Return tt (Batch.__init__ "batch-3" 7 20 None).
Proof.
  assert (value_of (Batch.can_allocate example_line)
            (Batch.__init__ "batch-3" 7 20 None) = Some true) as Hcan
    by (vm_compute; reflexivity).
  assert (example_line ∉ Batch._allocations (Batch.__init__ "batch-3" 7 20 None))
    as Hout by (apply (bool_decide_unpack _); vm_compute; exact I).
  split; [exact Hcan|]. split; [exact Hout|].
  destruct (deallocate_removes_and_roundtrip example_line
              (Batch.__init__ "batch-3" 7 20 None)) as (_ & _ & Hround).
  exact (Hround Hcan Hout).
Defined.

(** ** Identity of batches *)

(** C8. Two batches are equal exactly when their references are equal,
    whatever their other fields are, and the hash of a batch is the hash of
    its reference; so batches that share a reference are equal and have
    the same hash. *)
Theorem Batch_eq_and_hash_by_reference (hash_str : string → Z) (a b : Batch.t) :
  (Batch.__eq__ a (Batch.PyBatch b) = true
   ↔ Batch.reference a = Batch.reference b)
  ∧ Batch.__hash__ hash_str a = hash_str (Batch.reference a)
  ∧ (Batch.reference a = Batch.reference b →
     Batch.__hash__ hash_str a = Batch.__hash__ hash_str b)
  ∧ (∀ ref sku sku' qty qty' eta eta' lines lines',
       Batch.__eq__ (Batch.mk ref sku eta qty lines)
         (Batch.PyBatch (Batch.mk ref sku' eta' qty' lines')) = true
       ∧ Batch.__hash__ hash_str (Batch.mk ref sku eta qty lines)
         = Batch.__hash__ hash_str (Batch.mk ref sku' eta' qty' lines')).
Proof.
  unfold Batch.__eq__, Batch.__hash__. split_and!.
  - rewrite bool_decide_eq_true. split; congruence.
  - done.
  - by intros ->.
  - intros. simpl. by rewrite bool_decide_eq_true_2.
Qed.

(** ** available_quantity is never negative *)

Lemma perform_keeps_available_nonneg (c : call) (self : Batch.t) :
  0 < OrderLine.qty (call_line c) →
  0 ≤ Batch._purchased_quantity self - Batch.sum_qty (Batch._allocations self) →
  ∃ self' : Batch.t,
    perform c self = Return tt self'
    ∧ 0 ≤ Batch._purchased_quantity self'
          - Batch.sum_qty (Batch._allocations self').
Proof.
  intros Hpos Hinv. destruct c as [line|line]; simpl in *.
  - rewrite allocate_eq. eexists. split; [done|].
    destruct (_ && _) eqn:Hok; [|done].
    apply andb_true_iff in Hok as [_ Hfit%Z.leb_le]. simpl.
    destruct (decide (line ∈ Batch._allocations self)) as [Hin|Hout].
    + by rewrite allocations_add_present.
    + rewrite sum_qty_add_fresh by done. lia.
  - rewrite deallocate_eq. eexists. split; [done|].
    destruct (decide _) as [Hin|Hout]; [|done]. simpl.
    rewrite sum_qty_remove by done. lia.
Qed.

Lemma perform_all_keeps_available_nonneg (cs : list call) (self : Batch.t) :
  Forall (λ c, 0 < OrderLine.qty (call_line c)) cs →
  0 ≤ Batch._purchased_quantity self - Batch.sum_qty (Batch._allocations self) →
  ∃ self' : Batch.t,
    perform_all cs self = Return tt self'
    ∧ 0 ≤ Batch._purchased_quantity self'
          - Batch.sum_qty (Batch._allocations self').
Proof.
  intros Hpos. revert self.
  induction Hpos as [|c cs Hc _ IH]; intros self Hinv; simpl.
  - by exists self.
  - destruct (perform_keeps_available_nonneg c self Hc Hinv) as (self1 & Hrun & Hinv1).
    destruct (IH self1 Hinv1) as (self2 & Hrun2 & Hinv2).
    exists self2. split; [|done].
    unfold mbind, M_bind. by rewrite Hrun.
Qed.

(** C3. From a batch constructed with a nonnegative purchased quantity,
    after every call of a sequence of [allocate] and [deallocate] calls
    whose lines have positive quantity, the calls so far have all returned
    and [available_quantity] is at least 0. *)
Theorem available_quantity_never_negative
    (ref : string) (sku qty : Z) (eta : option date) (calls : list call) (n : nat) :
  0 ≤ qty →
  Forall (λ c, 0 < OrderLine.qty (call_line c)) calls →
  ∃ (self : Batch.t) (available : Z),
    perform_all (take n calls) (Batch.__init__ ref sku qty eta) = Return tt self
    ∧ Batch.available_quantity self = Return available self
    ∧ 0 ≤ available.
Proof.
  intros Hqty Hpos.
  destruct (perform_all_keeps_available_nonneg (take n calls)
              (Batch.__init__ ref sku qty eta)) as (self & Hrun & Hinv).
  - by apply Forall_take.
  - simpl. rewrite sum_qty_empty. lia.
  - exists self. eexists. split; [done|]. split; [apply available_quantity_eq|done].
Qed.

Lemma available_quantity_never_negative_witness :
  0 ≤ 20
  ∧ Forall (λ c, 0 < OrderLine.qty (call_line c))
      [Allocate example_line; Allocate example_large_line;
       Deallocate example_line; Allocate (OrderLine.mk "order-3" 7 20)]
  ∧ ∃ (self : Batch.t) (available : Z),
      perform_all
        (take 3 [Allocate example_line; Allocate example_large_line;
                 Deallocate example_line; Allocate (OrderLine.mk "order-3" 7 20)])
        (Batch.__init__ "batch-3" 7 20 None) = Return tt self
      ∧ Batch.available_quantity self = Return available self
      ∧ 0 ≤ available.
Proof.
  assert (Forall (λ c, 0 < OrderLine.qty (call_line c))
            [Allocate example_line; Allocate example_large_line;
             Deallocate example_line; Allocate (OrderLine.mk "order-3" 7 20)])
    as Hpos.
  { repeat constructor. }
  split; [lia|]. split; [exact Hpos|].
  apply (available_quantity_never_negative "batch-3" 7 20 None _ 3);
    [lia|exact Hpos].
Defined.

(** ** [sorted] is a stable sort *)

Section sorted_facts.
Context {A : Type} (lt : A → A → bool).

(** [a] may stand before [b]: [b] is not smaller than [a]. *)
Let le (a b : A) : Prop := lt b a = false.

Lemma insort_right_Permutation (x : A) (l : list A) :
  insort_right lt x l ≡ₚ x :: l.
Proof.
  induction l as [|y l IH]; simpl; [done|].
  destruct (lt x y); [done|]. rewrite IH. apply Permutation_swap.
Qed.

Lemma foldl_insort_right_Permutation (acc l : list A) :
  foldl (λ acc x, insort_right lt x acc) acc l ≡ₚ acc ++ l.
Proof.
  revert acc. induction l as [|x l IH]; intros acc; simpl.
  - by rewrite (right_id_L [] (++)).
  - rewrite IH, insort_right_Permutation. simpl. apply Permutation_middle.
Qed.

Lemma sorted_Permutation (l : list A) : sorted lt l ≡ₚ l.
Proof. apply foldl_insort_right_Permutation. Qed.

(** The comparison is a strict weak order. *)
Hypothesis lt_asym : ∀ a b, lt a b = true → lt b a = false.
Hypothesis le_trans : ∀ a b c, le a b → le b c → le a c.

Lemma lt_le_trans (x y z : A) : lt x y = true → le y z → lt x z = true.
Proof using le_trans.
  intros Hxy Hyz. destruct (lt x z) eqn:Hxz; [done|].
  assert (le y x) as Hyx by (apply (le_trans y z x); done).
  unfold le in Hyx. congruence.
Qed.

Lemma insort_right_StronglySorted (x : A) (l : list A) :
  StronglySorted le l → StronglySorted le (insort_right lt x l).
Proof using lt_asym le_trans.
  induction 1 as [|y l Hl IH Hy]; simpl.
  - repeat constructor.
  - destruct (lt x y) eqn:Hxy.
    + constructor; [by constructor|].
      constructor; [by apply lt_asym|].
      eapply Forall_impl; [done|]. intros z Hz. simpl in Hz.
      apply lt_asym. by eapply lt_le_trans.
    + constructor; [done|].
      rewrite insort_right_Permutation. by constructor.
Qed.

Lemma foldl_insort_right_StronglySorted (acc l : list A) :
  StronglySorted le acc →
  StronglySorted le (foldl (λ acc x, insort_right lt x acc) acc l).
Proof using lt_asym le_trans.
  revert acc. induction l as [|x l IH]; intros acc Hacc; simpl; [done|].
  by apply IH, insort_right_StronglySorted.
Qed.

Lemma sorted_StronglySorted (l : list A) : StronglySorted le (sorted lt l).
Proof using lt_asym le_trans.
  apply foldl_insort_right_StronglySorted. constructor.
Qed.

(** Stability: a class of elements that the comparison does not tell
    apart keeps its order. *)
Section stable.
Context (P : A → Prop) `{!∀ x, Decision (P x)}.
Hypothesis P_incomparable : ∀ x z, P x → lt x z = true → ¬ P z.

Lemma filter_none (l : list A) :
  Forall (λ z, ¬ P z) l → filter P l = [].
Proof.
  induction 1 as [|z l Hz _ IH]; [done|]. by rewrite filter_cons_False.
Qed.

Lemma insort_right_filter (x : A) (l : list A) :
  StronglySorted le l →
  filter P (insort_right lt x l) = filter P l ++ filter P [x].
Proof using lt_asym le_trans P_incomparable.
  induction 1 as [|y l Hl IH Hy]; simpl; [done|].
  destruct (lt x y) eqn:Hxy.
  - destruct (decide (P x)) as [HP|HP].
    + rewrite (filter_cons_True P x (y :: l)) by done.
      rewrite (filter_none (y :: l)); [by rewrite filter_cons_True|].
      constructor; [by eapply P_incomparable|].
      eapply Forall_impl; [done|]. intros z Hz. simpl in Hz.
      eapply P_incomparable; [done|]. by eapply lt_le_trans.
    + rewrite !(filter_cons_False P x) by done.
      by rewrite filter_nil, (right_id_L [] (++)).
  - rewrite !(filter_cons P y), IH. by destruct (decide (P y)).
Qed.

Lemma foldl_insort_right_filter (acc l : list A) :
  StronglySorted le acc →
  filter P (foldl (λ acc x, insort_right lt x acc) acc l)
  = filter P acc ++ filter P l.
Proof using lt_asym le_trans P_incomparable.
  revert acc. induction l as [|x l IH]; intros acc Hacc; simpl.
  - by rewrite filter_nil, (right_id_L [] (++)).
  - rewrite IH by (by apply insort_right_StronglySorted).
    rewrite insort_right_filter by done.
    rewrite <-(assoc_L (++)). f_equal.
    by rewrite <-filter_app.
Qed.

Lemma sorted_stable (l : list A) : filter P (sorted lt l) = filter P l.
Proof using lt_asym le_trans P_incomparable.
  unfold sorted. rewrite foldl_insort_right_filter by constructor.
  by rewrite filter_nil.
Qed.
End stable.

(** Two elements that the comparison does not tell apart. *)
Let tied (a b : A) : Prop := lt a b = false ∧ lt b a = false.

Lemma lt_irrefl (a : A) : lt a a = false.
Proof using lt_asym.
  destruct (lt a a) eqn:Haa; [|done]. by rewrite (lt_asym a a Haa) in Haa.
Qed.

Lemma tied_incomparable (x a z : A) : tied x a → lt a z = true → ¬ tied x z.
Proof using le_trans.
  intros [Hxa Hax] Haz [Hxz Hzx].
  assert (lt a x = true) as Hlt by (by eapply lt_le_trans).
  congruence.
Qed.

(** The result of a stable sort is determined by its input: two ascending
    reorderings of one list that both keep tied elements in order are the
    same list.  So any stable sorting procedure returns [sorted lt l]. *)
Lemma stable_sorted_unique (l1 l2 : list A) :
  l1 ≡ₚ l2 →
  StronglySorted le l1 →
  StronglySorted le l2 →
  (∀ x, filter (tied x) l1 = filter (tied x) l2) →
  l1 = l2.
Proof using lt_asym le_trans.
  revert l2. induction l1 as [|a l1 IH]; intros l2 Hperm Hs1 Hs2 Hstable.
  { by apply Permutation_nil_l in Hperm. }
  destruct l2 as [|b l2]; [by apply Permutation_nil_r in Hperm|].
  apply StronglySorted_cons in Hs1 as [Ha Hs1].
  apply StronglySorted_cons in Hs2 as [Hb Hs2].
  assert (tied a a) as Haa by (split; apply lt_irrefl).
  assert (tied a b) as Hab.
  { split.
    - assert (a ∈ b :: l2) as Hin by (rewrite <-Hperm; set_solver).
      apply elem_of_cons in Hin as [->|Hin]; [apply lt_irrefl|].
      rewrite Forall_forall in Hb. by apply Hb.
    - assert (b ∈ a :: l1) as Hin by (rewrite Hperm; set_solver).
      apply elem_of_cons in Hin as [->|Hin]; [apply lt_irrefl|].
      rewrite Forall_forall in Ha. by apply Ha. }
  pose proof (Hstable a) as Hhead.
  rewrite !filter_cons_True in Hhead by done. injection Hhead as <- _.
  f_equal. apply IH; [by eapply Permutation_cons_inv|done..|].
  intros x. specialize (Hstable x). rewrite !(filter_cons _ a) in Hstable.
  destruct (decide (tied x a)); [by injection Hstable|done].
Qed.

Lemma sorted_unique (l l' : list A) :
  l' ≡ₚ l →
  StronglySorted le l' →
  (∀ x, filter (tied x) l' = filter (tied x) l) →
  l' = sorted lt l.
Proof using lt_asym le_trans.
  intros Hperm Hsorted Hstable. apply stable_sorted_unique.
  - by rewrite sorted_Permutation.
  - done.
  - apply sorted_StronglySorted.
  - intros x. rewrite Hstable. symmetry. apply sorted_stable.
    intros a z. apply tied_incomparable.
Qed.
End sorted_facts.

(** ** The order on batches *)

Lemma date_gt_spec (a b : date) :
  date_gt a b = true ↔
    year b < year a
    ∨ (year a = year b
       ∧ (month b < month a ∨ (month a = month b ∧ day b < day a))).
Proof.
  unfold date_gt.
  rewrite !orb_true_iff, !andb_true_iff, !orb_true_iff, !andb_true_iff.
  rewrite !Z.ltb_lt, !Z.eqb_eq. done.
Qed.

Lemma date_gt_false_spec (a b : date) :
  date_gt a b = false ↔
    ¬ (year b < year a
       ∨ (year a = year b
          ∧ (month b < month a ∨ (month a = month b ∧ day b < day a)))).
Proof. by rewrite <-date_gt_spec, not_true_iff_false. Qed.

Lemma date_gt_irrefl (d : date) : date_gt d d = false.
Proof. apply date_gt_false_spec. lia. Qed.

Lemma date_gt_asym (a b : date) : date_gt a b = true → date_gt b a = false.
Proof. rewrite date_gt_spec, date_gt_false_spec. lia. Qed.

Lemma date_gt_negtrans (a b c : date) :
  date_gt a b = false → date_gt b c = false → date_gt a c = false.
Proof. rewrite !date_gt_false_spec. lia. Qed.

Lemma Batch_gt_eta (a b a' b' : Batch.t) :
  Batch.eta a = Batch.eta a' → Batch.eta b = Batch.eta b' →
  Batch.__gt__ a b = Batch.__gt__ a' b'.
Proof. unfold Batch.__gt__. by intros -> ->. Qed.

Lemma Batch_gt_neq_eta (a b : Batch.t) :
  Batch.__gt__ a b = true → Batch.eta a ≠ Batch.eta b.
Proof.
  unfold Batch.__gt__. intros Hgt Heq. rewrite Heq in Hgt.
  destruct (Batch.eta b); [|done]. by rewrite date_gt_irrefl in Hgt.
Qed.

Lemma Batch_lt_asym (a b : Batch.t) :
  Batch.lt a b = true → Batch.lt b a = false.
Proof.
  unfold Batch.lt, Batch.__gt__.
  destruct (Batch.eta a), (Batch.eta b); try done. apply date_gt_asym.
Qed.

Lemma Batch_le_trans (a b c : Batch.t) :
  Batch.lt b a = false → Batch.lt c b = false → Batch.lt c a = false.
Proof.
  unfold Batch.lt, Batch.__gt__.
  destruct (Batch.eta a), (Batch.eta b), (Batch.eta c); try done.
  apply date_gt_negtrans.
Qed.

(** ** Running [allocate] on a heap *)

Section heap.
Context (h : gmap loc Batch.t).

Lemma can_allocate_at_lookup (line : OrderLine.t) (l : loc) (b : Batch.t) :
  h !! l = Some b →
  Batch.can_allocate line b = Return (can_allocate_at line h l) b.
Proof.
  intros Hl. unfold can_allocate_at, value_of. rewrite Hl, can_allocate_eq.
  f_equal. by destruct (_ && _).
Qed.

Lemma invoke_can_allocate (line : OrderLine.t) (l : loc) :
  is_Some (h !! l) →
  invoke l (Batch.can_allocate line) h = Return (can_allocate_at line h l) h.
Proof.
  intros [b Hl]. unfold invoke. rewrite Hl.
  rewrite (can_allocate_at_lookup line l b Hl). by rewrite insert_id.
Qed.

Lemma next_can_allocate_exhausted (line : OrderLine.t) (bs : list loc) :
  Forall (λ l, is_Some (h !! l)) bs →
  Forall (λ l, can_allocate_at line h l = false) bs →
  next_can_allocate line bs h = Raise StopIteration h.
Proof.
  intros Hlive. induction 1 as [|l bs Hl _ IH]; [done|].
  apply Forall_cons in Hlive as [Hlive_l Hlive].
  simpl. unfold mbind, M_bind. rewrite invoke_can_allocate, Hl by done.
  by apply IH.
Qed.

Lemma next_can_allocate_found (line : OrderLine.t) (pre post : list loc) (l : loc) :
  Forall (λ l, is_Some (h !! l)) (pre ++ l :: post) →
  Forall (λ l, can_allocate_at line h l = false) pre →
  can_allocate_at line h l = true →
  next_can_allocate line (pre ++ l :: post) h = Return l h.
Proof.
  intros Hlive Hpre Hl. induction Hpre as [|l' pre Hl' _ IH]; simpl in *.
  - apply Forall_cons in Hlive as [Hlive_l _].
    unfold mbind, M_bind. by rewrite invoke_can_allocate, Hl.
  - apply Forall_cons in Hlive as [Hlive_l' Hlive].
    unfold mbind, M_bind. rewrite invoke_can_allocate, Hl' by done.
    by apply IH.
Qed.

(** A list either has a first allocatable batch or none at all. *)
Lemma first_allocatable (line : OrderLine.t) (bs : list loc) :
  Forall (λ l, can_allocate_at line h l = false) bs
  ∨ ∃ pre l post,
      bs = pre ++ l :: post
      ∧ Forall (λ l, can_allocate_at line h l = false) pre
      ∧ can_allocate_at line h l = true.
Proof.
  induction bs as [|l bs IH]; [by left|].
  destruct (can_allocate_at line h l) eqn:Hl.
  - right. exists [], l, bs. by repeat split.
  - destruct IH as [Hnone|(pre & l' & post & -> & Hpre & Hl')].
    + left. by constructor.
    + right. exists (l :: pre), l', post. repeat split; [|done]. by constructor.
Qed.

Lemma deref_live (batches : list loc) :
  Forall (λ l, is_Some (h !! l)) batches →
  ∃ ps : list (loc * Batch.t),
    deref batches h = Return ps h
    ∧ ps.*1 = batches
    ∧ Forall (λ p, h !! p.1 = Some p.2) ps.
Proof.
  intros Hlive. unfold deref.
  destruct (mapM _ batches) as [ps|] eqn:Hps.
  - exists ps. split; [done|]. apply mapM_Some in Hps.
    induction Hps as [|l p batches ps Hp _ IH]; [done|].
    apply Forall_cons in Hlive as [_ Hlive].
    destruct (IH Hlive) as [IH1 IH2].
    destruct (h !! l) as [b|] eqn:Hl; [|done]. simpl in Hp.
    injection Hp as <-. simpl. split; [by f_equal|]. by constructor.
  - apply mapM_None in Hps. apply Exists_exists in Hps as (l & Hin & Hl).
    rewrite Forall_forall in Hlive. destruct (Hlive l Hin) as [b Hb].
    by rewrite Hb in Hl.
Qed.

Lemma deref_Return_live (batches : list loc) :
  deref batches h ≠ Dangling → Forall (λ l, is_Some (h !! l)) batches.
Proof.
  unfold deref. destruct (mapM _ batches) as [ps|] eqn:Hps; [intros _|done].
  assert (is_Some (mapM (λ l, pair l <$> h !! l) batches)) as Hsome by eauto.
  apply mapM_is_Some in Hsome. eapply Forall_impl; [done|].
  intros l. simpl. by rewrite fmap_is_Some.
Qed.

Lemma StronglySorted_fst_resolved (ps : list (loc * Batch.t)) :
  Forall (λ p, h !! p.1 = Some p.2) ps →
  StronglySorted (λ p q, Batch.lt q.2 p.2 = false) ps →
  StronglySorted (λ a c, gt_at h a c = false) ps.*1.
Proof.
  intros Hres. induction 1 as [|p ps Hps IH Hp]; [constructor|].
  apply Forall_cons in Hres as [Hres_p Hres]. simpl.
  constructor; [by apply IH|].
  apply Forall_fmap. rewrite Forall_forall in *. intros q Hq. simpl.
  unfold gt_at. rewrite Hres_p, (Hres q Hq). by apply Hp.
Qed.

Lemma filter_fst_resolved (e : option (option date)) (ps : list (loc * Batch.t)) :
  Forall (λ p, h !! p.1 = Some p.2) ps →
  filter (λ l, eta_at h l = e) ps.*1
  = (filter (λ p, Some (Batch.eta p.2) = e) ps).*1.
Proof.
  induction 1 as [|p ps Hp _ IH]; [done|].
  assert (eta_at h p.1 = Some (Batch.eta p.2)) as Heta
    by (unfold eta_at; by rewrite Hp).
  rewrite fmap_cons, !filter_cons, IH.
  destruct (decide (eta_at h p.1 = e)), (decide (Some (Batch.eta p.2) = e));
    try done; congruence.
Qed.

(** [sorted(batches)] returns a reordering of [batches] in which no
    batch is greater than a later one and batches with the same eta keep
    their input order. *)
Lemma sorted_batches_spec (batches : list loc) :
  Forall (λ l, is_Some (h !! l)) batches →
  ∃ bs : list loc,
    sorted_batches batches h = Return bs h
    ∧ bs ≡ₚ batches
    ∧ StronglySorted (λ a c, gt_at h a c = false) bs
    ∧ ∀ e, filter (λ l, eta_at h l = e) bs
           = filter (λ l, eta_at h l = e) batches.
Proof.
  intros Hlive. destruct (deref_live batches Hlive) as (ps & Hps & Hfst & Hres).
  set (lt := λ x y : loc * Batch.t, Batch.lt x.2 y.2).
  assert (sorted lt ps ≡ₚ ps) as Hperm by apply sorted_Permutation.
  assert (Forall (λ p, h !! p.1 = Some p.2) (sorted lt ps)) as Hres'
    by (by rewrite Hperm).
  exists (sorted lt ps).*1. split_and!.
  - unfold sorted_batches, mbind, M_bind. by rewrite Hps.
  - by rewrite Hperm, Hfst.
  - apply StronglySorted_fst_resolved; [done|].
    apply (sorted_StronglySorted lt).
    + intros a b. apply Batch_lt_asym.
    + intros a b c. apply Batch_le_trans.
  - intros e. rewrite <-Hfst, !filter_fst_resolved by done. f_equal.
    apply (sorted_stable lt).
    + intros a b. apply Batch_lt_asym.
    + intros a b c. apply Batch_le_trans.
    + intros x z <- Hlt Heq. injection Heq as Heq.
      by apply Batch_gt_neq_eta in Hlt.
Qed.

Lemma invoke_allocate (line : OrderLine.t) (l : loc) (b : Batch.t) :
  h !! l = Some b →
  can_allocate_at line h l = true →
  invoke l (Batch.allocate line) h
  = Return tt
      (<[l := Batch.set_allocations (Batch._allocations b ∪ {[line]}) b]> h).
Proof.
  intros Hl Hok. unfold invoke. rewrite Hl, allocate_eq.
  pose proof (can_allocate_at_lookup line l b Hl) as Hcan.
  rewrite can_allocate_eq, Hok in Hcan. injection Hcan as ->. done.
Qed.

(** The two ways [allocate] can go on a well-formed heap. *)
Lemma allocate_run (line : OrderLine.t) (batches : list loc) :
  Forall (λ l, is_Some (h !! l)) batches →
  ∃ bs : list loc,
    sorted_batches batches h = Return bs h
    ∧ ((Forall (λ l, can_allocate_at line h l = false) bs
        ∧ allocate line batches h
          = Raise (OutOfStock ("Out of stock for sku: "
                               +:+ pretty (OrderLine.sku line))) h)
       ∨ ∃ pre l post b,
           bs = pre ++ l :: post
           ∧ Forall (λ l, can_allocate_at line h l = false) pre
           ∧ can_allocate_at line h l = true
           ∧ h !! l = Some b
           ∧ allocate line batches h
             = Return (Batch.reference b)
                 (<[l := Batch.set_allocations
                           (Batch._allocations b ∪ {[line]}) b]> h)).
Proof.
  intros Hlive.
  destruct (sorted_batches_spec batches Hlive) as (bs & Hbs & Hperm & _).
  assert (Forall (λ l, is_Some (h !! l)) bs) as Hlive' by (by rewrite Hperm).
  exists bs. split; [done|].
  destruct (first_allocatable line bs)
    as [Hnone|(pre & l & post & -> & Hpre & Hl)]; [left|right].
  - split; [done|].
    unfold allocate, try_except, mbind, M_bind. rewrite Hbs.
    by rewrite next_can_allocate_exhausted.
  - assert (is_Some (h !! l)) as [b Hb].
    { rewrite Forall_forall in Hlive'. apply Hlive'. set_solver. }
    exists pre, l, post, b. split_and!; [done..|].
    unfold allocate, try_except, mbind, M_bind. rewrite Hbs.
    rewrite next_can_allocate_found by done.
    rewrite (invoke_allocate line l b) by done.
    unfold invoke, gets. rewrite lookup_insert_eq. simpl.
    by rewrite insert_insert_eq.
Qed.
End heap.

(** ** allocate: the selected batch *)

(** C1. When some batch of the list can allocate the line, [allocate]
    returns the reference of the first allocatable batch of the list sorted
    by eta (no eta first, then ascending), and its only effect is to insert
    the line into that batch's allocation set.  No allocatable batch of the
    list is earlier than the selected one; if a batch without eta can
    allocate, the selected batch has no eta (and is that batch when it is
    the only one without eta); if no batch without eta can allocate, the
    selected batch is a dated one. *)
Theorem allocate_selects_earliest_allocatable
    (line : OrderLine.t) (batches : list loc) (h : gmap loc Batch.t) :
  Forall (λ l, is_Some (h !! l)) batches →
  Exists (λ l, can_allocate_at line h l = true) batches →
  ∃ (pre : list loc) (l : loc) (post : list loc) (b : Batch.t),
    pre ++ l :: post ≡ₚ batches
    ∧ StronglySorted (λ a c, gt_at h a c = false) (pre ++ l :: post)
    ∧ Forall (λ l', can_allocate_at line h l' = false) pre
    ∧ can_allocate_at line h l = true
    ∧ h !! l = Some b
    ∧ allocate line batches h
      = Return (Batch.reference b)
          (<[l := Batch.set_allocations (Batch._allocations b ∪ {[line]}) b]> h)
    ∧ (∀ l' b', l' ∈ batches → h !! l' = Some b' →
                can_allocate_at line h l' = true → Batch.__gt__ b b' = false)
    ∧ (∀ l0, l0 ∈ batches → eta_at h l0 = Some None →
             can_allocate_at line h l0 = true →
             Batch.eta b = None
             ∧ ((∀ l1, l1 ∈ batches → eta_at h l1 = Some None → l1 = l0) →
                l = l0))
    ∧ ((∀ l0, l0 ∈ batches → eta_at h l0 = Some None →
              can_allocate_at line h l0 = false) →
       is_Some (Batch.eta b)).
Proof.
  intros Hlive Hsome.
  destruct (sorted_batches_spec h batches Hlive) as (bs & Hbs & Hperm & Hsorted & _).
  destruct (allocate_run h line batches Hlive)
    as (bs' & Hbs' & [[Hnone _]|(pre & l & post & b & -> & Hpre & Hl & Hb & Hrun)]).
  { rewrite Hbs in Hbs'. injection Hbs' as <-.
    rewrite <-Hperm in Hsome. apply Exists_exists in Hsome as (l & Hin & Hl).
    rewrite Forall_forall in Hnone. rewrite (Hnone l Hin) in Hl. done. }
  rewrite Hbs in Hbs'. injection Hbs' as ->.
  assert (∀ l' b', l' ∈ batches → h !! l' = Some b' →
            can_allocate_at line h l' = true → Batch.__gt__ b b' = false)
    as Hmin.
  { intros l' b' Hin Hb' Hl'. rewrite <-Hperm in Hin.
    apply elem_of_app in Hin as [Hin|Hin].
    { rewrite Forall_forall in Hpre. rewrite (Hpre l' Hin) in Hl'. done. }
    apply elem_of_cons in Hin as [->|Hin].
    - rewrite Hb in Hb'. injection Hb' as <-.
      destruct (Batch.__gt__ b b) eqn:Hgt; [|done].
      by apply Batch_gt_neq_eta in Hgt.
    - apply StronglySorted_app in Hsorted as (_ & _ & Hsorted).
      apply StronglySorted_cons in Hsorted as [Hsorted _].
      rewrite Forall_forall in Hsorted. specialize (Hsorted l' Hin).
      unfold gt_at in Hsorted. by rewrite Hb, Hb' in Hsorted. }
  assert (l ∈ batches) as Hin_l by (rewrite <-Hperm; set_solver).
  exists pre, l, post, b. split_and!; try done.
  - intros l0 Hin0 Heta0 Hl0. unfold eta_at in Heta0.
    destruct (h !! l0) as [b0|] eqn:Hb0; [|done]. injection Heta0 as Heta0.
    specialize (Hmin l0 b0 Hin0 Hb0 Hl0).
    assert (Batch.eta b = None) as Heta.
    { unfold Batch.__gt__ in Hmin. rewrite Heta0 in Hmin.
      by destruct (Batch.eta b). }
    split; [done|]. intros Honly. apply Honly; [done|].
    unfold eta_at. by rewrite Hb, <-Heta.
  - intros Hnone. destruct (Batch.eta b) as [d|] eqn:Heta; [by eexists|].
    rewrite (Hnone l) in Hl; [done..|]. unfold eta_at. by rewrite Hb, <-Heta.
Qed.

Lemma allocate_selects_earliest_allocatable_witness :
  Forall (λ l, is_Some (example_heap !! l)) example_batches
  ∧ Exists (λ l, can_allocate_at example_line example_heap l = true)
      example_batches
  ∧ allocate example_line example_batches example_heap
    = Return "batch-3"
        (<[3%positive := Batch.set_allocations {[example_line]}
                           (Batch.__init__ "batch-3" 7 20 None)]> example_heap).
Proof.
  assert (Forall (λ l, is_Some (example_heap !! l)) example_batches) as Hlive.
  { apply (bool_decide_unpack _). vm_compute. exact I. }
  assert (Exists (λ l, can_allocate_at example_line example_heap l = true)
            example_batches) as Hsome.
  { apply (bool_decide_unpack _). vm_compute. exact I. }
  split; [exact Hlive|]. split; [exact Hsome|].
  destruct (allocate_selects_earliest_allocatable
              example_line example_batches example_heap Hlive Hsome)
    as (pre & l & post & b & _ & _ & _ & _ & Hb & Hrun & _ & Honly & _).
  assert (l = 3%positive) as ->.
  { apply (Honly 3%positive).
    - apply (bool_decide_unpack _). vm_compute. exact I.
    - vm_compute. reflexivity.
    - vm_compute. reflexivity.
    - intros l1 Hin Heta. unfold example_batches in Hin.
      apply elem_of_cons in Hin as [->|Hin]; [vm_compute in Heta; discriminate|].
      apply elem_of_cons in Hin as [->|Hin]; [vm_compute in Heta; discriminate|].
      apply elem_of_cons in Hin as [->|Hin]; [reflexivity|].
      by apply elem_of_nil in Hin. }
  rewrite Hrun.
  assert (b = Batch.__init__ "batch-3" 7 20 None) as ->.
  { assert (Some b = Some (Batch.__init__ "batch-3" 7 20 None)) as Hlook
      by (rewrite <-Hb; vm_compute; reflexivity).
    congruence. }
  vm_compute. reflexivity.
Defined.

(** ** allocate: out of stock *)

(** C2. [allocate] raises [OutOfStock] exactly when no batch of the list
    can allocate the line, which includes the empty list.  Whenever it
    raises, the exception is [OutOfStock] with the message built from the
    line's sku (distinct skus give distinct messages) and the heap is the
    one it started from: no batch has changed. *)
Theorem allocate_out_of_stock_iff_none_allocatable
    (line : OrderLine.t) (batches : list loc) (h : gmap loc Batch.t) :
  Forall (λ l, is_Some (h !! l)) batches →
  ((∃ msg h', allocate line batches h = Raise (OutOfStock msg) h')
   ↔ Forall (λ l, can_allocate_at line h l = false) batches)
  ∧ (∀ e h', allocate line batches h = Raise e h' →
       e = OutOfStock ("Out of stock for sku: " +:+ pretty (OrderLine.sku line))
       ∧ h' = h)
  ∧ allocate line [] h
    = Raise (OutOfStock ("Out of stock for sku: "
                         +:+ pretty (OrderLine.sku line))) h
  ∧ (∀ line',
       "Out of stock for sku: " +:+ pretty (OrderLine.sku line)
       = "Out of stock for sku: " +:+ pretty (OrderLine.sku line') →
       OrderLine.sku line = OrderLine.sku line').
Proof.
  intros Hlive.
  destruct (sorted_batches_spec h batches Hlive) as (bs & Hbs & Hperm & _).
  destruct (allocate_run h line batches Hlive)
    as (bs' & Hbs' & [[Hnone Hrun]|(pre & l & post & b & Hsplit & Hpre & Hl & Hb & Hrun)]);
    rewrite Hbs in Hbs'; injection Hbs' as <-; [|subst bs].
  - rewrite Hperm in Hnone. split_and!.
    + split; [done|]. intros _. eauto.
    + intros e h'. rewrite Hrun. by intros [= <- <-].
    + reflexivity.
    + intros line' Hmsg. by apply (inj _), (inj pretty) in Hmsg.
  - split_and!.
    + split.
      * intros (msg & h' & Hraise). by rewrite Hrun in Hraise.
      * intros Hnone. rewrite <-Hperm in Hnone. rewrite Forall_forall in Hnone.
        rewrite (Hnone l) in Hl; [done|]. set_solver.
    + intros e h'. by rewrite Hrun.
    + reflexivity.
    + intros line' Hmsg. by apply (inj _), (inj pretty) in Hmsg.
Qed.

Lemma allocate_out_of_stock_iff_none_allocatable_witness :
  Forall (λ l, is_Some (example_heap !! l)) example_batches
  ∧ allocate example_large_line example_batches example_heap
    = Raise (OutOfStock "Out of stock for sku: 7") example_heap.
Proof.
  assert (Forall (λ l, is_Some (example_heap !! l)) example_batches) as Hlive.
  { apply (bool_decide_unpack _). vm_compute. exact I. }
  split; [exact Hlive|].
  destruct (allocate_out_of_stock_iff_none_allocatable
              example_large_line example_batches example_heap Hlive)
    as ([_ Hraises] & Hexn & _).
  destruct Hraises as (msg & h' & Hrun).
  { apply (bool_decide_unpack _). vm_compute. exact I. }
  destruct (Hexn _ _ Hrun) as [Hmsg ->].
  rewrite Hrun. f_equal. rewrite Hmsg. vm_compute. reflexivity.
Defined.

(** ** allocate: the other batches *)

Lemma allocate_Return_live
    (line : OrderLine.t) (batches : list loc) (h h' : gmap loc Batch.t) (r : string) :
  allocate line batches h = Return r h' → Forall (λ l, is_Some (h !! l)) batches.
Proof.
  intros Hrun. apply deref_Return_live. intros Hdangling.
  unfold allocate, try_except, sorted_batches, mbind, M_bind in Hrun.
  by rewrite Hdangling in Hrun.
Qed.

(** C10. When [allocate] returns, there is one batch of the list, the
    selected one, such that every other batch is the same object in the
    same state afterwards: same allocation set, same [allocated_quantity],
    same [available_quantity]. *)
Theorem allocate_mutates_only_selected
    (line : OrderLine.t) (batches : list loc) (h h' : gmap loc Batch.t) (r : string) :
  allocate line batches h = Return r h' →
  ∃ (l : loc) (b : Batch.t),
    l ∈ batches ∧ h !! l = Some b ∧ r = Batch.reference b
    ∧ ∀ l' b', l' ≠ l → h !! l' = Some b' →
        h' !! l' = Some b'
        ∧ ∃ b'', h' !! l' = Some b''
            ∧ Batch._allocations b'' = Batch._allocations b'
            ∧ Batch.allocated_quantity b'' = Batch.allocated_quantity b'
            ∧ Batch.available_quantity b'' = Batch.available_quantity b'.
Proof.
  intros Hret. pose proof (allocate_Return_live _ _ _ _ _ Hret) as Hlive.
  destruct (sorted_batches_spec h batches Hlive) as (bs & Hbs & Hperm & _).
  destruct (allocate_run h line batches Hlive)
    as (bs' & Hbs' & [[_ Hrun]|(pre & l & post & b & Hsplit & Hpre & Hl & Hb & Hrun)]);
    rewrite Hbs in Hbs'; injection Hbs' as <-; [|subst bs].
  { by rewrite Hrun in Hret. }
  rewrite Hrun in Hret. injection Hret as <- <-.
  exists l, b. split_and!; [rewrite <-Hperm; set_solver|done..|].
  intros l' b' Hne Hb'.
  assert (<[l:=Batch.set_allocations (Batch._allocations b ∪ {[line]}) b]> h !! l'
          = Some b') as Hsame by (by rewrite lookup_insert_ne).
  split; [done|]. by exists b'.
Qed.

Lemma allocate_mutates_only_selected_witness :
  allocate example_line example_batches example_heap
  = Return "batch-3"
      (<[3%positive := Batch.set_allocations {[example_line]}
                         (Batch.__init__ "batch-3" 7 20 None)]> example_heap)
  ∧ ∃ (l : loc) (b : Batch.t),
      l ∈ example_batches ∧ example_heap !! l = Some b
      ∧ "batch-3" = Batch.reference b
      ∧ ∀ l' b', l' ≠ l → example_heap !! l' = Some b' →
          <[3%positive := Batch.set_allocations {[example_line]}
                            (Batch.__init__ "batch-3" 7 20 None)]>
            example_heap !! l' = Some b'
          ∧ ∃ b'',
              <[3%positive := Batch.set_allocations {[example_line]}
                                (Batch.__init__ "batch-3" 7 20 None)]>
                example_heap !! l' = Some b''
              ∧ Batch._allocations b'' = Batch._allocations b'
              ∧ Batch.allocated_quantity b'' = Batch.allocated_quantity b'
              ∧ Batch.available_quantity b'' = Batch.available_quantity b'.
Proof.
  assert (allocate example_line example_batches example_heap
          = Return "batch-3"
              (<[3%positive := Batch.set_allocations {[example_line]}
                                 (Batch.__init__ "batch-3" 7 20 None)]>
                 example_heap)) as Hrun
    by (vm_compute; reflexivity).
  split; [exact Hrun|].
  exact (allocate_mutates_only_selected _ _ _ _ _ Hrun).
Defined.

(** ** The order used by allocate *)

Lemma filter_head_split {A} (Q : A → Prop) `{!∀ x, Decision (Q x)}
    (l : list A) (x : A) (rest : list A) :
  filter Q l = x :: rest →
  ∃ pre post, l = pre ++ x :: post ∧ Forall (λ y, ¬ Q y) pre.
Proof.
  induction l as [|y l IH]; [done|]. rewrite filter_cons.
  destruct (decide (Q y)) as [Hy|Hy].
  - intros [= -> _]. by exists [], l.
  - intros (pre & post & -> & Hpre)%IH. exists (y :: pre), post.
    split; [done|]. by constructor.
Qed.

(** C9. [__gt__] looks at the etas only; a batch without eta is greater
    than no batch and smaller than every dated batch; two dated batches
    compare as their dates.  On a well-formed heap [sorted(batches)]
    returns a reordering of [batches] in which no batch is greater than a
    later one and in which the batches of any one eta (no eta included)
    stand in their input order.  So when [allocate] returns, the selected
    batch is the first one in the input list among the allocatable batches
    with its eta. *)
Theorem batch_order_by_eta_and_stable
    (line : OrderLine.t) (batches : list loc) (h : gmap loc Batch.t) :
  Forall (λ l, is_Some (h !! l)) batches →
  (∀ a b a' b' : Batch.t,
     Batch.eta a = Batch.eta a' → Batch.eta b = Batch.eta b' →
     Batch.__gt__ a b = Batch.__gt__ a' b')
  ∧ (∀ a b : Batch.t, Batch.eta a = None → Batch.__gt__ a b = false)
  ∧ (∀ a b : Batch.t,
       Batch.eta a = None → is_Some (Batch.eta b) → Batch.lt a b = true)
  ∧ (∀ (a b : Batch.t) (d d' : date),
       Batch.eta a = Some d → Batch.eta b = Some d' →
       Batch.lt a b = date_gt d' d)
  ∧ (∃ bs : list loc,
       sorted_batches batches h = Return bs h
       ∧ bs ≡ₚ batches
       ∧ StronglySorted (λ a c, gt_at h a c = false) bs
       ∧ ∀ e, filter (λ l, eta_at h l = e) bs
              = filter (λ l, eta_at h l = e) batches)
  ∧ (∀ r h', allocate line batches h = Return r h' →
       ∃ (pre : list loc) (l : loc) (post : list loc) (b : Batch.t),
         batches = pre ++ l :: post
         ∧ h !! l = Some b
         ∧ r = Batch.reference b
         ∧ h' = <[l := Batch.set_allocations
                          (Batch._allocations b ∪ {[line]}) b]> h
         ∧ can_allocate_at line h l = true
         ∧ ∀ l', l' ∈ pre → eta_at h l' = eta_at h l →
                 can_allocate_at line h l' = false).
Proof.
  intros Hlive. split_and!.
  - apply Batch_gt_eta.
  - intros a b Ha. unfold Batch.__gt__. by rewrite Ha.
  - intros a b Ha [d Hb]. unfold Batch.lt, Batch.__gt__. by rewrite Ha, Hb.
  - intros a b d d' Ha Hb. unfold Batch.lt, Batch.__gt__. by rewrite Ha, Hb.
  - by apply sorted_batches_spec.
  - intros r h' Hret.
    destruct (sorted_batches_spec h batches Hlive) as (bs & Hbs & _ & _ & Hstable).
    destruct (allocate_run h line batches Hlive)
      as (bs' & Hbs' & [[_ Hrun]|(pre' & l & post' & b & Hsplit & Hpre & Hl & Hb & Hrun)]);
      rewrite Hbs in Hbs'; injection Hbs' as <-; [|subst bs].
    { by rewrite Hrun in Hret. }
    rewrite Hrun in Hret. injection Hret as <- <-.
    set (Q := λ l', can_allocate_at line h l' = true ∧ eta_at h l' = eta_at h l).
    assert (∃ rest, filter Q batches = l :: rest) as [rest Hfilter].
    { unfold Q. rewrite <-list_filter_filter, <-Hstable, list_filter_filter.
      rewrite filter_app, filter_cons_True by done.
      rewrite filter_none; [by eexists|].
      eapply Forall_impl; [done|]. intros l' Hl' [Hcan _]. congruence. }
    apply filter_head_split in Hfilter as (pre & post & -> & Hnot).
    exists pre, l, post, b. split_and!; try done.
    intros l' Hin Heta. rewrite Forall_forall in Hnot. specialize (Hnot l' Hin).
    destruct (can_allocate_at line h l') eqn:Hl'; [|done].
    exfalso. by apply Hnot.
Qed.

Lemma batch_order_by_eta_and_stable_witness :
  Forall (λ l, is_Some (example_tie_heap !! l)) example_tie_batches
  ∧ ∃ bs : list loc,
      sorted_batches example_tie_batches example_tie_heap
      = Return bs example_tie_heap
      ∧ filter (λ l, eta_at example_tie_heap l = Some (Some (Date 2020 1 1))) bs
        = [4; 2]%positive.
Proof.
  assert (Forall (λ l, is_Some (example_tie_heap !! l)) example_tie_batches)
    as Hlive.
  { apply (bool_decide_unpack _). vm_compute. exact I. }
  split; [exact Hlive|].
  destruct (batch_order_by_eta_and_stable
              example_line example_tie_batches example_tie_heap Hlive)
    as (_ & _ & _ & _ & (bs & Hbs & _ & _ & Hstable) & _).
  exists bs. split; [exact Hbs|].
  rewrite Hstable. vm_compute. reflexivity.
Defined.

(** * Further properties of the module *)

(** ** What a sequence of calls can change *)

Lemma sum_qty_nonneg (X : gset OrderLine.t) :
  (∀ x, x ∈ X → 0 ≤ OrderLine.qty x) → 0 ≤ Batch.sum_qty X.
Proof.
  induction X as [|x X Hfresh IH] using set_ind_L; intros Hpos.
  - by rewrite sum_qty_empty.
  - rewrite (comm_L (∪)), sum_qty_add_fresh by done.
    assert (0 ≤ OrderLine.qty x) by (apply Hpos; set_solver).
    assert (0 ≤ Batch.sum_qty X) by (apply IH; intros; apply Hpos; set_solver).
    lia.
Qed.

Lemma perform_frame (c : call) (self : Batch.t) :
  ∃ X : gset OrderLine.t,
    perform c self = Return tt (Batch.set_allocations X self)
    ∧ ∀ x, x ∈ X →
        x ∈ Batch._allocations self
        ∨ (c = Allocate x ∧ OrderLine.sku x = Batch.sku self).
Proof.
  destruct c as [line|line]; simpl.
  - rewrite allocate_eq. destruct (_ && _) eqn:Hok.
    + eexists. split; [done|]. intros x [Hx| ->%elem_of_singleton]%elem_of_union;
        [by left|right].
      apply andb_true_iff in Hok as [Hsku%Z.eqb_eq _]. done.
    + exists (Batch._allocations self). rewrite set_allocations_id. auto.
  - rewrite deallocate_eq. destruct (decide _).
    + eexists. split; [done|]. intros x Hx. left. set_solver.
    + exists (Batch._allocations self). rewrite set_allocations_id. auto.
Qed.

Lemma perform_all_frame (cs : list call) (self : Batch.t) :
  ∃ X : gset OrderLine.t,
    perform_all cs self = Return tt (Batch.set_allocations X self)
    ∧ ∀ x, x ∈ X →
        x ∈ Batch._allocations self
        ∨ (Allocate x ∈ cs ∧ OrderLine.sku x = Batch.sku self).
Proof.
  revert self. induction cs as [|c cs IH]; intros self; simpl.
  - exists (Batch._allocations self). rewrite set_allocations_id. auto.
  - destruct (perform_frame c self) as (X1 & Hrun1 & HX1).
    destruct (IH (Batch.set_allocations X1 self)) as (X2 & Hrun2 & HX2).
    exists X2. split.
    + unfold mbind, M_bind. by rewrite Hrun1, Hrun2.
    + intros x Hx. destruct (HX2 x Hx) as [Hin|[Hin Hsku]].
      * destruct (HX1 x Hin) as [?|[-> ?]]; [by left|right].
        split; [|done]. apply elem_of_cons. by left.
      * right. split; [|done]. apply elem_of_cons. by right.
Qed.

(** X1. Whatever lines they are given, the calls of a sequence of
    [allocate] and [deallocate] calls all return normally, and the batch
    they leave has the reference, sku, eta and purchased quantity it
    started with: only the allocation set can differ. *)
Theorem calls_change_only_allocations (calls : list call) (self : Batch.t) :
  ∃ self' : Batch.t,
    perform_all calls self = Return tt self'
    ∧ Batch.reference self' = Batch.reference self
    ∧ Batch.sku self' = Batch.sku self
    ∧ Batch.eta self' = Batch.eta self
    ∧ Batch._purchased_quantity self' = Batch._purchased_quantity self.
Proof.
  destruct (perform_all_frame calls self) as (X & Hrun & _).
  eexists. split; [exact Hrun|]. done.
Qed.

(** X2. A batch built by the constructor and used through [allocate] and
    [deallocate] only ever holds lines that were passed to [allocate] and
    that have the batch's sku. *)
Theorem allocated_lines_were_allocated_with_batch_sku
    (ref : string) (sku qty : Z) (eta : option date) (calls : list call) :
  ∃ self : Batch.t,
    perform_all calls (Batch.__init__ ref sku qty eta) = Return tt self
    ∧ ∀ x, x ∈ Batch._allocations self →
        Allocate x ∈ calls ∧ OrderLine.sku x = sku.
Proof.
  destruct (perform_all_frame calls (Batch.__init__ ref sku qty eta))
    as (X & Hrun & HX).
  eexists. split; [exact Hrun|]. simpl. intros x Hx.
  destruct (HX x Hx) as [Hin|?]; [|done]. simpl in Hin. set_solver.
Qed.

(** X3. For a batch constructed with a nonnegative purchased quantity and
    called with lines of positive quantity, [allocated_quantity] stays
    between 0 and the purchased quantity. *)
Theorem allocated_quantity_within_purchased
    (ref : string) (sku qty : Z) (eta : option date) (calls : list call) :
  0 ≤ qty →
  Forall (λ c, 0 < OrderLine.qty (call_line c)) calls →
  ∃ (self : Batch.t) (allocated : Z),
    perform_all calls (Batch.__init__ ref sku qty eta) = Return tt self
    ∧ Batch.allocated_quantity self = Return allocated self
    ∧ 0 ≤ allocated ≤ qty.
Proof.
  intros Hqty Hpos.
  destruct (perform_all_frame calls (Batch.__init__ ref sku qty eta))
    as (X & Hrun & HX).
  destruct (perform_all_keeps_available_nonneg calls
              (Batch.__init__ ref sku qty eta) Hpos) as (self & Hrun' & Hinv).
  { simpl. rewrite sum_qty_empty. lia. }
  rewrite Hrun in Hrun'. injection Hrun' as <-.
  eexists _, _. split; [exact Hrun|]. split; [apply allocated_quantity_eq|].
  simpl in *. split; [|lia].
  apply sum_qty_nonneg. intros x Hx.
  destruct (HX x Hx) as [Hin|[Hin _]]; [set_solver|].
  rewrite Forall_forall in Hpos. specialize (Hpos _ Hin). simpl in Hpos. lia.
Qed.

Lemma allocated_quantity_within_purchased_witness :
  0 ≤ 20
  ∧ Forall (λ c, 0 < OrderLine.qty (call_line c))
      [Allocate example_line; Deallocate example_large_line;
       Allocate (OrderLine.mk "order-3" 7 18)]
  ∧ ∃ (self : Batch.t) (allocated : Z),
      perform_all
        [Allocate example_line; Deallocate example_large_line;
         Allocate (OrderLine.mk "order-3" 7 18)]
        (Batch.__init__ "batch-3" 7 20 None) = Return tt self
      ∧ Batch.allocated_quantity self = Return allocated self
      ∧ 0 ≤ allocated ≤ 20.
Proof.
  assert (Forall (λ c, 0 < OrderLine.qty (call_line c))
            [Allocate example_line; Deallocate example_large_line;
             Allocate (OrderLine.mk "order-3" 7 18)]) as Hpos.
  { repeat constructor. }
  split; [lia|]. split; [exact Hpos|].
  apply (allocated_quantity_within_purchased "batch-3" 7 20 None);
    [lia|exact Hpos].
Defined.

(** ** Quantities moved by one call *)

Lemma sum_qty_add_le (line : OrderLine.t) (X : gset OrderLine.t) :
  0 ≤ OrderLine.qty line →
  Batch.sum_qty (X ∪ {[line]}) ≤ Batch.sum_qty X + OrderLine.qty line.
Proof.
  intros Hpos. destruct (decide (line ∈ X)) as [Hin|Hout].
  - rewrite allocations_add_present by done. lia.
  - rewrite sum_qty_add_fresh by done. lia.
Qed.

Lemma allocate_fits (line : OrderLine.t) (self : Batch.t) :
  OrderLine.sku line = Batch.sku self →
  OrderLine.qty line
  ≤ Batch._purchased_quantity self - Batch.sum_qty (Batch._allocations self) →
  Batch.allocate line self
  = Return tt (Batch.set_allocations (Batch._allocations self ∪ {[line]}) self).
Proof.
  intros Hsku Hfit. rewrite allocate_eq.
  assert ((Batch.sku self =? OrderLine.sku line) = true) as ->
    by (apply Z.eqb_eq; congruence).
  by assert ((OrderLine.qty line
              <=? Batch._purchased_quantity self
                  - Batch.sum_qty (Batch._allocations self)) = true) as ->
    by (by apply Z.leb_le).
Qed.

(** X4. Allocating a line that the batch can allocate and does not hold
    yet raises [allocated_quantity] by exactly the line's quantity and
    lowers [available_quantity] by the same amount, which stays at least
    0. *)
Theorem Batch_allocate_takes_exactly_qty (line : OrderLine.t) (self : Batch.t) :
  value_of (Batch.can_allocate line) self = Some true →
  line ∉ Batch._allocations self →
  ∃ (self' : Batch.t) (allocated available : Z),
    Batch.allocate line self = Return tt self'
    ∧ Batch.allocated_quantity self = Return allocated self
    ∧ Batch.available_quantity self = Return available self
    ∧ Batch.allocated_quantity self'
      = Return (allocated + OrderLine.qty line) self'
    ∧ Batch.available_quantity self'
      = Return (available - OrderLine.qty line) self'
    ∧ 0 ≤ available - OrderLine.qty line.
Proof.
  unfold value_of. rewrite can_allocate_eq. intros [= Hok] Hout.
  eexists _, _, _. split; [apply allocate_eq|]. rewrite Hok.
  split; [apply allocated_quantity_eq|]. split; [apply available_quantity_eq|].
  rewrite allocated_quantity_eq, available_quantity_eq. simpl.
  rewrite sum_qty_add_fresh by done.
  apply andb_true_iff in Hok as [_ Hfit%Z.leb_le].
  split_and!; [done| |lia]. f_equal. lia.
Qed.

Lemma Batch_allocate_takes_exactly_qty_witness :
  value_of (Batch.can_allocate example_line)
    (Batch.__init__ "batch-3" 7 20 None) = Some true
  ∧ (example_line ∉ Batch._allocations (Batch.__init__ "batch-3" 7 20 None))
  ∧ ∃ (self' : Batch.t) (allocated available : Z),
      Batch.allocate example_line (Batch.__init__ "batch-3" 7 20 None)
      = Return tt self'
      ∧ Batch.allocated_quantity (Batch.__init__ "batch-3" 7 20 None)
        = Return allocated (Batch.__init__ "batch-3" 7 20 None)
      ∧ Batch.available_quantity (Batch.__init__ "batch-3" 7 20 None)
        = Return available (Batch.__init__ "batch-3" 7 20 None)
      ∧ Batch.allocated_quantity self'
        = Return (allocated + OrderLine.qty example_line) self'
      ∧ Batch.available_quantity self'
        = Return (available - OrderLine.qty example_line) self'
      ∧ 0 ≤ available - OrderLine.qty example_line.
Proof.
  assert (value_of (Batch.can_allocate example_line)
            (Batch.__init__ "batch-3" 7 20 None) = Some true) as Hcan
    by (vm_compute; reflexivity).
  assert (example_line ∉ Batch._allocations (Batch.__init__ "batch-3" 7 20 None))
    as Hout by (apply (bool_decide_unpack _); vm_compute; exact I).
  split; [exact Hcan|]. split; [exact Hout|].
  exact (Batch_allocate_takes_exactly_qty _ _ Hcan Hout).
Defined.

(** X5. [deallocate(line)] returns normally and leaves a batch that does
    not hold the line and on which a second [deallocate(line)] changes
    nothing; the other lines are held exactly as before, and when the line
    was held [available_quantity] has grown by exactly its quantity. *)
Theorem Batch_deallocate_frees_qty_once (line : OrderLine.t) (self : Batch.t) :
  ∃ self' : Batch.t,
    Batch.deallocate line self = Return tt self'
    ∧ (line ∉ Batch._allocations self')
    ∧ Batch.deallocate line self' = Return tt self'
    ∧ (∀ x, x ≠ line →
         (x ∈ Batch._allocations self' ↔ x ∈ Batch._allocations self))
    ∧ (line ∈ Batch._allocations self →
       ∃ available : Z,
         Batch.available_quantity self = Return available self
         ∧ Batch.available_quantity self'
           = Return (available + OrderLine.qty line) self').
Proof.
  eexists. split; [apply deallocate_eq|].
  destruct (decide (line ∈ Batch._allocations self)) as [Hin|Hout].
  - split_and!.
    + simpl. set_solver.
    + rewrite deallocate_eq. rewrite decide_False; [done|]. simpl. set_solver.
    + intros x Hx. simpl. set_solver.
    + intros _. eexists. split; [apply available_quantity_eq|].
      rewrite available_quantity_eq. simpl. rewrite sum_qty_remove by done.
      f_equal. lia.
  - split_and!; [done| |done|done].
    rewrite deallocate_eq. by rewrite decide_False.
Qed.

(** X6. For a line that the batch holds and that has the batch's sku, on a
    batch whose [available_quantity] is not negative, [deallocate] followed
    by [allocate] gives back the batch as it was. *)
Theorem deallocate_allocate_roundtrip
    (line : OrderLine.t) (self : Batch.t) (available : Z) :
  line ∈ Batch._allocations self →
  OrderLine.sku line = Batch.sku self →
  Batch.available_quantity self = Return available self →
  0 ≤ available →
  (Batch.deallocate line;; Batch.allocate line) self = Return tt self.
Proof.
  intros Hin Hsku. rewrite available_quantity_eq. intros [= <-] Havail.
  unfold mbind, M_bind. rewrite deallocate_eq, decide_True by done.
  rewrite allocate_fits; [|done|simpl; rewrite sum_qty_remove by done; lia].
  destruct self as [r s e p X]; unfold Batch.set_allocations; simpl in *.
  do 2 f_equal. apply set_eq. intros x.
  destruct (decide (x = line)); set_solver.
Qed.

Lemma deallocate_allocate_roundtrip_witness :
  example_line
    ∈ Batch._allocations
        (Batch.set_allocations {[example_line]}
           (Batch.__init__ "batch-3" 7 20 None))
  ∧ OrderLine.sku example_line
    = Batch.sku (Batch.set_allocations {[example_line]}
                   (Batch.__init__ "batch-3" 7 20 None))
  ∧ Batch.available_quantity
      (Batch.set_allocations {[example_line]}
         (Batch.__init__ "batch-3" 7 20 None))
    = Return 18 (Batch.set_allocations {[example_line]}
                   (Batch.__init__ "batch-3" 7 20 None))
  ∧ 0 ≤ 18
  ∧ (Batch.deallocate example_line;; Batch.allocate example_line)
      (Batch.set_allocations {[example_line]}
         (Batch.__init__ "batch-3" 7 20 None))
    = Return tt (Batch.set_allocations {[example_line]}
                   (Batch.__init__ "batch-3" 7 20 None)).
Proof.
  assert (example_line
            ∈ Batch._allocations
                (Batch.set_allocations {[example_line]}
                   (Batch.__init__ "batch-3" 7 20 None))) as Hin
    by (apply (bool_decide_unpack _); vm_compute; exact I).
  assert (Batch.available_quantity
            (Batch.set_allocations {[example_line]}
               (Batch.__init__ "batch-3" 7 20 None))
          = Return 18 (Batch.set_allocations {[example_line]}
                         (Batch.__init__ "batch-3" 7 20 None))) as Havail
    by (vm_compute; reflexivity).
  split; [exact Hin|]. split; [reflexivity|]. split; [exact Havail|].
  split; [lia|].
  apply (deallocate_allocate_roundtrip _ _ 18 Hin); [reflexivity|exact Havail|lia].
Defined.

(** X7. Two lines of the batch's sku with nonnegative quantities that fit
    into [available_quantity] together are both allocated, and the batch
    ends in the same state whichever of them is allocated first. *)
Theorem allocations_that_fit_together_commute
    (line1 line2 : OrderLine.t) (self : Batch.t) (available : Z) :
  OrderLine.sku line1 = Batch.sku self →
  OrderLine.sku line2 = Batch.sku self →
  0 ≤ OrderLine.qty line1 →
  0 ≤ OrderLine.qty line2 →
  Batch.available_quantity self = Return available self →
  OrderLine.qty line1 + OrderLine.qty line2 ≤ available →
  (Batch.allocate line1;; Batch.allocate line2) self
  = Return tt
      (Batch.set_allocations (Batch._allocations self ∪ {[line1]} ∪ {[line2]})
         self)
  ∧ (Batch.allocate line2;; Batch.allocate line1) self
    = (Batch.allocate line1;; Batch.allocate line2) self.
Proof.
  intros Hsku1 Hsku2 Hq1 Hq2. rewrite available_quantity_eq.
  intros [= <-] Hfit.
  assert (∀ a b : OrderLine.t,
            OrderLine.sku a = Batch.sku self → OrderLine.sku b = Batch.sku self →
            0 ≤ OrderLine.qty a → 0 ≤ OrderLine.qty b →
            OrderLine.qty a + OrderLine.qty b
            ≤ Batch._purchased_quantity self
              - Batch.sum_qty (Batch._allocations self) →
            (Batch.allocate a;; Batch.allocate b) self
            = Return tt
                (Batch.set_allocations
                   (Batch._allocations self ∪ {[a]} ∪ {[b]}) self)) as Hboth.
  { intros a b Ha Hb Hqa Hqb Hab. unfold mbind, M_bind.
    rewrite (allocate_fits a self) by (done || lia).
    rewrite allocate_fits; [done|done|]. simpl.
    pose proof (sum_qty_add_le a (Batch._allocations self) Hqa). lia. }
  split; [by apply Hboth|].
  rewrite !Hboth by (done || lia). do 2 f_equal. set_solver.
Qed.

Lemma allocations_that_fit_together_commute_witness :
  (Batch.allocate example_line;; Batch.allocate (OrderLine.mk "order-3" 7 18))
    (Batch.__init__ "batch-3" 7 20 None)
  = Return tt
      (Batch.set_allocations
         (Batch._allocations (Batch.__init__ "batch-3" 7 20 None)
          ∪ {[example_line]} ∪ {[OrderLine.mk "order-3" 7 18]})
         (Batch.__init__ "batch-3" 7 20 None))
  ∧ (Batch.allocate (OrderLine.mk "order-3" 7 18);; Batch.allocate example_line)
      (Batch.__init__ "batch-3" 7 20 None)
    = (Batch.allocate example_line;; Batch.allocate (OrderLine.mk "order-3" 7 18))
        (Batch.__init__ "batch-3" 7 20 None).
Proof.
  apply (allocations_that_fit_together_commute example_line
           (OrderLine.mk "order-3" 7 18) (Batch.__init__ "batch-3" 7 20 None) 20).
  - reflexivity.
  - reflexivity.
  - vm_compute. discriminate.
  - vm_compute. discriminate.
  - vm_compute. reflexivity.
  - vm_compute. discriminate.
Defined.

(** ** Comparison, equality and display of batches *)

Lemma date_gt_trans (a b c : date) :
  date_gt a b = true → date_gt b c = true → date_gt a c = true.
Proof. rewrite !date_gt_spec. lia. Qed.

Lemma date_gt_total (a b : date) :
  date_gt a b = false → date_gt b a = false → a = b.
Proof.
  rewrite !date_gt_false_spec. destruct a as [y1 m1 d1], b as [y2 m2 d2].
  simpl. intros H1 H2. f_equal; lia.
Qed.

Lemma Batch_gt_tied_iff_eta (a b : Batch.t) :
  Batch.__gt__ a b = false ∧ Batch.__gt__ b a = false
  ↔ Batch.eta a = Batch.eta b.
Proof.
  unfold Batch.__gt__. split.
  - destruct (Batch.eta a) as [d|], (Batch.eta b) as [d'|]; intros [H1 H2];
      try done. f_equal. by apply date_gt_total.
  - intros ->. destruct (Batch.eta b); [|done]. by rewrite date_gt_irrefl.
Qed.

(** X8. [__gt__] is a strict order that is total on etas: no batch is
    greater than itself, two batches are never each greater than the
    other, greater-than is transitive, and neither of two batches is
    greater than the other exactly when they have the same eta. *)
Theorem Batch_gt_strict_total_order_on_eta (a b c : Batch.t) :
  Batch.__gt__ a a = false
  ∧ (Batch.__gt__ a b = true → Batch.__gt__ b a = false)
  ∧ (Batch.__gt__ a b = true → Batch.__gt__ b c = true →
     Batch.__gt__ a c = true)
  ∧ (Batch.__gt__ a b = false ∧ Batch.__gt__ b a = false
     ↔ Batch.eta a = Batch.eta b).
Proof.
  split_and!.
  - by apply Batch_gt_tied_iff_eta.
  - apply (Batch_lt_asym b a).
  - unfold Batch.__gt__.
    destruct (Batch.eta a), (Batch.eta b), (Batch.eta c); try done.
    apply date_gt_trans.
  - apply Batch_gt_tied_iff_eta.
Qed.

(** X9. Equality of batches is an equivalence relation, a batch is equal
    to no order line, number, string or [None], and a batch stays equal to
    what it was, with the same hash, through any sequence of [allocate] and
    [deallocate] calls. *)
Theorem Batch_eq_equivalence_stable_under_calls
    (hash_str : string → Z) (a b c : Batch.t) (calls : list call) :
  Batch.__eq__ a (Batch.PyBatch a) = true
  ∧ Batch.__eq__ a (Batch.PyBatch b) = Batch.__eq__ b (Batch.PyBatch a)
  ∧ (Batch.__eq__ a (Batch.PyBatch b) = true →
     Batch.__eq__ b (Batch.PyBatch c) = true →
     Batch.__eq__ a (Batch.PyBatch c) = true)
  ∧ (∀ other, (∀ x, other ≠ Batch.PyBatch x) → Batch.__eq__ a other = false)
  ∧ ∃ a' : Batch.t,
      perform_all calls a = Return tt a'
      ∧ Batch.__eq__ a' (Batch.PyBatch a) = true
      ∧ Batch.__eq__ a (Batch.PyBatch a') = true
      ∧ Batch.__hash__ hash_str a' = Batch.__hash__ hash_str a.
Proof.
  unfold Batch.__eq__, Batch.__hash__. split_and!.
  - by apply bool_decide_eq_true_2.
  - apply bool_decide_ext. split; congruence.
  - rewrite !bool_decide_eq_true. congruence.
  - intros [x| | | |] Hother; try done. by destruct (Hother x).
  - destruct (perform_all_frame calls a) as (X & Hrun & _).
    eexists. split; [exact Hrun|]. simpl.
    by rewrite bool_decide_eq_true_2.
Qed.

Lemma string_app_gt_inj (s1 s2 : string) : s1 +:+ ">" = s2 +:+ ">" → s1 = s2.
Proof.
  revert s2. induction s1 as [|c s1 IH]; intros [|c' s2]; simpl; try done.
  - intros [= _ Hs2]. by destruct s2.
  - intros [= _ Hs1]. by destruct s1.
  - intros [= -> Hs]. f_equal. by apply IH.
Qed.

(** X10. The display of a batch is its reference between ["<Batch "] and
    [">"], so two batches are displayed alike exactly when they are
    equal. *)
Theorem Batch_repr_shows_reference (a b : Batch.t) :
  Batch.__repr__ a = "<Batch " +:+ Batch.reference a +:+ ">"
  ∧ (Batch.__repr__ a = Batch.__repr__ b
     ↔ Batch.__eq__ a (Batch.PyBatch b) = true).
Proof.
  split; [done|]. unfold Batch.__repr__, Batch.__eq__.
  rewrite bool_decide_eq_true. split.
  - intros Hrepr. apply (inj _) in Hrepr. by apply string_app_gt_inj in Hrepr.
  - by intros ->.
Qed.

(** ** More on [sorted] *)

Section sorted_more.
Context {A : Type} (lt : A → A → bool).
Hypothesis lt_asym : ∀ a b, lt a b = true → lt b a = false.
Hypothesis le_trans :
  ∀ a b c, lt b a = false → lt c b = false → lt c a = false.

Lemma sorted_of_sorted (l : list A) :
  StronglySorted (λ a b, lt b a = false) l → sorted lt l = l.
Proof using lt_asym le_trans.
  intros Hsorted. symmetry. by apply (sorted_unique lt lt_asym le_trans).
Qed.

Lemma sorted_reordered (l1 l2 : list A) :
  l1 ≡ₚ l2 →
  (∀ x, filter (λ b, lt x b = false ∧ lt b x = false) l1
        = filter (λ b, lt x b = false ∧ lt b x = false) l2) →
  sorted lt l1 = sorted lt l2.
Proof using lt_asym le_trans.
  intros Hperm Hstable. apply (sorted_unique lt lt_asym le_trans).
  - by rewrite sorted_Permutation.
  - by apply sorted_StronglySorted.
  - intros x. rewrite <-Hstable. apply sorted_stable; [done..|].
    intros a z. by apply tied_incomparable.
Qed.
End sorted_more.



(** ** More on the heap *)

Section heap_more.
Context (h : gmap loc Batch.t).

Lemma resolved_omap (ps : list (loc * Batch.t)) :
  Forall (λ p, h !! p.1 = Some p.2) ps →
  ps = omap (λ l, pair l <$> h !! l) ps.*1.
Proof.
  induction 1 as [|[l b] ps Hp _ IH]; [done|]. simpl in *.
  rewrite Hp. simpl. by f_equal.
Qed.

Lemma resolved_inj (ps1 ps2 : list (loc * Batch.t)) :
  Forall (λ p, h !! p.1 = Some p.2) ps1 →
  Forall (λ p, h !! p.1 = Some p.2) ps2 →
  ps1.*1 = ps2.*1 → ps1 = ps2.
Proof.
  intros H1 H2 Hfst.
  by rewrite (resolved_omap ps1 H1), (resolved_omap ps2 H2), Hfst.
Qed.

Lemma StronglySorted_resolved (ps : list (loc * Batch.t)) :
  Forall (λ p, h !! p.1 = Some p.2) ps →
  StronglySorted (λ a c, gt_at h a c = false) ps.*1 →
  StronglySorted (λ p q, Batch.lt q.2 p.2 = false) ps.
Proof.
  induction 1 as [|p ps Hp Hps IH]; [constructor|].
  rewrite fmap_cons. intros [Hhd Htl]%StronglySorted_cons.
  constructor; [by apply IH|].
  rewrite Forall_fmap in Hhd. rewrite Forall_forall in *. intros q Hq.
  specialize (Hhd q Hq). simpl in Hhd. unfold gt_at in Hhd.
  by rewrite Hp, (Hps q Hq) in Hhd.
Qed.

Lemma sorted_batches_of_sorted (batches : list loc) :
  Forall (λ l, is_Some (h !! l)) batches →
  StronglySorted (λ a c, gt_at h a c = false) batches →
  sorted_batches batches h = Return batches h.
Proof.
  intros Hlive Hsorted.
  destruct (deref_live h batches Hlive) as (ps & Hps & Hfst & Hres).
  unfold sorted_batches, mbind, M_bind. rewrite Hps.
  rewrite sorted_of_sorted; [by rewrite Hfst| | |].
  - intros a b. apply Batch_lt_asym.
  - intros a b c. apply Batch_le_trans.
  - apply StronglySorted_resolved; [done|]. by rewrite Hfst.
Qed.

Lemma sorted_batches_reordered (batches batches' : list loc) :
  Forall (λ l, is_Some (h !! l)) batches →
  batches' ≡ₚ batches →
  (∀ e, filter (λ l, eta_at h l = e) batches'
        = filter (λ l, eta_at h l = e) batches) →
  sorted_batches batches' h = sorted_batches batches h.
Proof.
  intros Hlive Hperm Hstable.
  assert (Forall (λ l, is_Some (h !! l)) batches') as Hlive'
    by (by rewrite Hperm).
  destruct (deref_live h batches Hlive) as (ps & Hps & Hfst & Hres).
  destruct (deref_live h batches' Hlive') as (ps' & Hps' & Hfst' & Hres').
  unfold sorted_batches, mbind, M_bind. rewrite Hps, Hps'.
  do 2 f_equal. apply sorted_reordered.
  - intros a b. apply Batch_lt_asym.
  - intros a b c. apply Batch_le_trans.
  - rewrite (resolved_omap ps Hres), (resolved_omap ps' Hres').
    by rewrite Hfst, Hfst', Hperm.
  - intros x.
    assert (∀ qs : list (loc * Batch.t),
              filter (λ b, Batch.lt x.2 b.2 = false ∧ Batch.lt b.2 x.2 = false) qs
              = filter (λ p, Some (Batch.eta p.2) = Some (Batch.eta x.2)) qs)
      as Htied.
    { intros qs. apply list_filter_iff. intros p. unfold Batch.lt.
      rewrite (Batch_gt_tied_iff_eta p.2 x.2). split; congruence. }
    rewrite !Htied. apply resolved_inj.
    + rewrite Forall_forall in *. intros p [_ Hp]%list_elem_of_filter. auto.
    + rewrite Forall_forall in *. intros p [_ Hp]%list_elem_of_filter. auto.
    + rewrite <-!(filter_fst_resolved h) by done. by rewrite Hfst, Hfst'.
Qed.
End heap_more.

(** X11. Sorting is idempotent on the heap: [sorted] returns an already
    sorted list of batches as it is, and in particular returns its own
    result unchanged when applied again. *)
Theorem sorted_batches_idempotent (batches : list loc) (h : gmap loc Batch.t) :
  Forall (λ l, is_Some (h !! l)) batches →
  (StronglySorted (λ a c, gt_at h a c = false) batches →
   sorted_batches batches h = Return batches h)
  ∧ ∃ bs : list loc,
      sorted_batches batches h = Return bs h
      ∧ sorted_batches bs h = Return bs h.
Proof.
  intros Hlive. split; [by apply sorted_batches_of_sorted|].
  destruct (sorted_batches_spec h batches Hlive) as (bs & Hbs & Hperm & Hsorted & _).
  exists bs. split; [done|].
  apply sorted_batches_of_sorted; [by rewrite Hperm|done].
Qed.

Lemma sorted_batches_idempotent_witness :
  Forall (λ l, is_Some (example_tie_heap !! l)) example_tie_batches
  ∧ ∃ bs : list loc,
      sorted_batches example_tie_batches example_tie_heap
      = Return bs example_tie_heap
      ∧ sorted_batches bs example_tie_heap = Return bs example_tie_heap.
Proof.
  assert (Forall (λ l, is_Some (example_tie_heap !! l)) example_tie_batches)
    as Hlive.
  { apply (bool_decide_unpack _). vm_compute. exact I. }
  split; [exact Hlive|].
  exact (proj2 (sorted_batches_idempotent _ _ Hlive)).
Defined.

(** X12. The outcome of [allocate] depends on the order of the list only
    through the order of batches that share an eta: for two lists with the
    same batches in which the batches of each eta stand in the same order,
    [allocate] returns the same reference and the same heap, or raises the
    same error. *)
Theorem allocate_ignores_order_across_etas
    (line : OrderLine.t) (batches batches' : list loc) (h : gmap loc Batch.t) :
  Forall (λ l, is_Some (h !! l)) batches →
  batches' ≡ₚ batches →
  (∀ e, filter (λ l, eta_at h l = e) batches'
        = filter (λ l, eta_at h l = e) batches) →
  allocate line batches' h = allocate line batches h.
Proof.
  intros Hlive Hperm Hstable.
  unfold allocate, try_except, mbind, M_bind.
  by rewrite (sorted_batches_reordered h batches batches').
Qed.

Lemma allocate_ignores_order_across_etas_witness :
  Forall (λ l, is_Some (example_heap !! l)) example_batches
  ∧ [3; 1; 2]%positive ≡ₚ example_batches
  ∧ (∀ e, filter (λ l, eta_at example_heap l = e) [3; 1; 2]%positive
          = filter (λ l, eta_at example_heap l = e) example_batches)
  ∧ allocate example_line [3; 1; 2]%positive example_heap
    = allocate example_line example_batches example_heap.
Proof.
  assert (Forall (λ l, is_Some (example_heap !! l)) example_batches) as Hlive.
  { apply (bool_decide_unpack _). vm_compute. exact I. }
  assert ([3; 1; 2]%positive ≡ₚ example_batches) as Hperm.
  { exact (Permutation_cons_append [1; 2]%positive 3%positive). }
  assert (∀ e, filter (λ l, eta_at example_heap l = e) [3; 1; 2]%positive
               = filter (λ l, eta_at example_heap l = e) example_batches)
    as Hstable.
  { intros e. unfold example_batches. rewrite !filter_cons, !filter_nil.
    assert (eta_at example_heap 1%positive = Some (Some (Date 2020 1 2))) as ->
      by (vm_compute; reflexivity).
    assert (eta_at example_heap 2%positive = Some (Some (Date 2020 1 1))) as ->
      by (vm_compute; reflexivity).
    assert (eta_at example_heap 3%positive = Some None) as ->
      by (vm_compute; reflexivity).
    repeat case_decide; try reflexivity; congruence. }
  split; [exact Hlive|]. split; [exact Hperm|]. split; [exact Hstable|].
  exact (allocate_ignores_order_across_etas _ _ _ _ Hlive Hperm Hstable).
Defined.

(** ** What [allocate] leaves behind *)

Section allocate_more.
Context (h : gmap loc Batch.t) (line : OrderLine.t).


Lemma allocate_Return_inv (batches : list loc) (r : string) (h' : gmap loc Batch.t) :
  allocate line batches h = Return r h' →
  ∃ (pre : list loc) (l : loc) (post : list loc) (b : Batch.t),
    sorted_batches batches h = Return (pre ++ l :: post) h
    ∧ pre ++ l :: post ≡ₚ batches
    ∧ Forall (λ l', can_allocate_at line h l' = false) pre
    ∧ can_allocate_at line h l = true
    ∧ h !! l = Some b
    ∧ r = Batch.reference b
    ∧ h' = <[l := Batch.set_allocations (Batch._allocations b ∪ {[line]}) b]> h.
Proof.
  intros Hret. pose proof (allocate_Return_live _ _ _ _ _ Hret) as Hlive.
  destruct (sorted_batches_spec h batches Hlive) as (bs & Hbs & Hperm & _).
  destruct (allocate_run h line batches Hlive)
    as (bs' & Hbs' & [[_ Hrun]|(pre & l & post & b & Hsplit & Hpre & Hl & Hb & Hrun)]);
    rewrite Hbs in Hbs'; injection Hbs' as <-; [|subst bs].
  { by rewrite Hrun in Hret. }
  rewrite Hrun in Hret. injection Hret as <- <-.
  by exists pre, l, post, b.
Qed.

Lemma can_allocate_at_true (l : loc) (b : Batch.t) :
  h !! l = Some b →
  can_allocate_at line h l = true →
  Batch.sku b = OrderLine.sku line
  ∧ OrderLine.qty line
    ≤ Batch._purchased_quantity b - Batch.sum_qty (Batch._allocations b).
Proof.
  intros Hb Hl. pose proof (can_allocate_at_lookup h line l b Hb) as Hcan.
  rewrite can_allocate_eq, Hl in Hcan. injection Hcan as Hcan.
  apply andb_true_iff in Hcan as [Hsku%Z.eqb_eq Hfit%Z.leb_le]. done.
Qed.
End allocate_more.

(** X13. When [allocate] returns, the heap holds the same batches as
    before, each with the reference, sku, eta and purchased quantity it
    had; each batch still holds every line it held, and any line it holds
    in addition is the allocated line. *)
Theorem allocate_keeps_batches_and_fields
    (line : OrderLine.t) (batches : list loc) (h h' : gmap loc Batch.t) (r : string) :
  allocate line batches h = Return r h' →
  dom h' = dom h
  ∧ ∀ l b, h !! l = Some b →
      ∃ b' : Batch.t,
        h' !! l = Some b'
        ∧ Batch.reference b' = Batch.reference b
        ∧ Batch.sku b' = Batch.sku b
        ∧ Batch.eta b' = Batch.eta b
        ∧ Batch._purchased_quantity b' = Batch._purchased_quantity b
        ∧ Batch._allocations b ⊆ Batch._allocations b'
        ∧ ∀ x, x ∈ Batch._allocations b' →
               x ∈ Batch._allocations b ∨ x = line.
Proof.
  intros (pre & l & post & b & _ & _ & _ & _ & Hb & _ & ->)%allocate_Return_inv.
  split.
  - rewrite dom_insert_L. apply elem_of_dom_2 in Hb. set_solver.
  - intros l0 b0 Hb0. destruct (decide (l0 = l)) as [->|Hne].
    + rewrite Hb in Hb0. injection Hb0 as <-. eexists.
      split; [apply lookup_insert_eq|]. simpl. split_and!; try done; set_solver.
    + exists b0. rewrite lookup_insert_ne by done. split_and!; try done. auto.
Qed.

Lemma allocate_keeps_batches_and_fields_witness :
  allocate example_line example_batches example_heap
  = Return "batch-3"
      (<[3%positive := Batch.set_allocations {[example_line]}
                         (Batch.__init__ "batch-3" 7 20 None)]> example_heap)
  ∧ dom (<[3%positive := Batch.set_allocations {[example_line]}
                           (Batch.__init__ "batch-3" 7 20 None)]> example_heap)
    = dom example_heap.
Proof.
  assert (allocate example_line example_batches example_heap
          = Return "batch-3"
              (<[3%positive := Batch.set_allocations {[example_line]}
                                 (Batch.__init__ "batch-3" 7 20 None)]>
                 example_heap)) as Hrun
    by (vm_compute; reflexivity).
  split; [exact Hrun|].
  exact (proj1 (allocate_keeps_batches_and_fields _ _ _ _ _ Hrun)).
Defined.

(** X14. When [allocate] returns a reference, a batch of the list with
    that reference and with the line's sku holds the line afterwards; and
    every batch whose [available_quantity] was not negative before still
    has a nonnegative [available_quantity], equal to the old one or to the
    old one less the line's quantity. *)
Theorem allocate_books_line_without_overdraw
    (line : OrderLine.t) (batches : list loc) (h h' : gmap loc Batch.t) (r : string) :
  allocate line batches h = Return r h' →
  (∃ (l : loc) (b' : Batch.t),
     l ∈ batches
     ∧ h' !! l = Some b'
     ∧ Batch.reference b' = r
     ∧ Batch.sku b' = OrderLine.sku line
     ∧ line ∈ Batch._allocations b')
  ∧ ∀ l b available,
      h !! l = Some b →
      Batch.available_quantity b = Return available b →
      0 ≤ available →
      ∃ (b' : Batch.t) (available' : Z),
        h' !! l = Some b'
        ∧ Batch.available_quantity b' = Return available' b'
        ∧ 0 ≤ available'
        ∧ (available' = available
           ∨ available' = available - OrderLine.qty line).
Proof.
  intros (pre & l & post & b & _ & Hperm & _ & Hl & Hb & -> & ->)%allocate_Return_inv.
  destruct (can_allocate_at_true h line l b Hb Hl) as [Hsku Hfit].
  split.
  - eexists l, _. split_and!; [rewrite <-Hperm; set_solver|apply lookup_insert_eq|..];
      simpl; [done|done|set_solver].
  - intros l0 b0 available Hb0. rewrite available_quantity_eq.
    intros [= <-] Havail. destruct (decide (l0 = l)) as [->|Hne].
    + rewrite Hb in Hb0. injection Hb0 as <-. eexists _, _.
      split; [apply lookup_insert_eq|]. split; [apply available_quantity_eq|].
      simpl. destruct (decide (line ∈ Batch._allocations b)) as [Hin|Hout].
      * rewrite allocations_add_present by done. auto.
      * rewrite sum_qty_add_fresh by done. split; [lia|]. right. lia.
    + exists b0. eexists. rewrite lookup_insert_ne by done.
      split; [done|]. split; [apply available_quantity_eq|]. auto.
Qed.

Lemma allocate_books_line_without_overdraw_witness :
  allocate example_line example_batches example_heap
  = Return "batch-3"
      (<[3%positive := Batch.set_allocations {[example_line]}
                         (Batch.__init__ "batch-3" 7 20 None)]> example_heap)
  ∧ ∃ (l : loc) (b' : Batch.t),
      l ∈ example_batches
      ∧ <[3%positive := Batch.set_allocations {[example_line]}
                          (Batch.__init__ "batch-3" 7 20 None)]>
          example_heap !! l = Some b'
      ∧ Batch.reference b' = "batch-3"
      ∧ Batch.sku b' = OrderLine.sku example_line
      ∧ example_line ∈ Batch._allocations b'.
Proof.
  assert (allocate example_line example_batches example_heap
          = Return "batch-3"
              (<[3%positive := Batch.set_allocations {[example_line]}
                                 (Batch.__init__ "batch-3" 7 20 None)]>
                 example_heap)) as Hrun
    by (vm_compute; reflexivity).
  split; [exact Hrun|].
  exact (proj1 (allocate_books_line_without_overdraw _ _ _ _ _ Hrun)).
Defined.

(** ** Calling [allocate] again *)



